(** * lonboard: layer construction, accessor validation and chunk planning

    A shallow embedding of [lonboard/_layer.py]: the Arrow-backed layer
    classes ([ScatterplotLayer], [PathLayer], [SolidPolygonLayer],
    [HeatmapLayer]), their accessor cross-validators, their default
    [_rows_per_chunk] and the [from_geopandas] class method.

    Python exceptions are values of [exn] carried by [result]; the objects a
    caller can still see after a call (the GeoDataFrame it passed in, the
    warnings that were emitted) live in an explicit [world] that
    [from_geopandas] threads through. *)

From Stdlib Require Import ZArith QArith Qround.
From stdpp Require Import base option list strings gmap.

Close Scope Q_scope.
Local Open Scope string_scope.

(** ** Exceptions and fallible results *)

Inductive exn : Type :=
| TraitError (msg : string)               (* traitlets.TraitError *)
| TypeError (msg : string)                (* builtin TypeError *)
| ValueError (msg : string)               (* builtin ValueError *)
| UnsupportedGeometryError                (* geometry type gate *)
| InvalidReference.                       (* a dangling object reference *)

Inductive result (E A : Type) : Type :=
| Ok (a : A)
| Err (e : E).
Arguments Ok {E A} a.
Arguments Err {E A} e.

#[global] Instance result_ret {E} : MRet (result E) := λ _ a, Ok a.
#[global] Instance result_bind {E} : MBind (result E) := λ _ _ f m,
  match m with Ok a => f a | Err e => Err e end.

Definition is_ok {E A} (r : result E A) : bool :=
  match r with Ok _ => true | Err _ => false end.

(** ** GeoArrow data *)

Module EXTENSION_NAME.
(* The members of [lonboard._constants.EXTENSION_NAME] that the layer
   declarations refer to. *)
Inductive t : Type :=
| POINT | LINESTRING | POLYGON | MULTIPOINT | MULTILINESTRING | MULTIPOLYGON.

Definition to_nat (e : t) : nat :=
  match e with
  | POINT => 0 | LINESTRING => 1 | POLYGON => 2
  | MULTIPOINT => 3 | MULTILINESTRING => 4 | MULTIPOLYGON => 5
  end.

Definition of_nat (n : nat) : option t :=
  match n with
  | 0 => Some POINT | 1 => Some LINESTRING | 2 => Some POLYGON
  | 3 => Some MULTIPOINT | 4 => Some MULTILINESTRING | 5 => Some MULTIPOLYGON
  | _ => None
  end.

#[global] Instance eq_dec : EqDecision t.
Proof. solve_decision. Defined.

#[global] Instance countable : Countable t.
Proof. apply (inj_countable to_nat of_nat). by intros []. Defined.
End EXTENSION_NAME.

Definition coord : Type := Q * Q.

Inductive geometry : Type :=
| Point (c : coord)
| LineString (cs : list coord)
| Polygon (rings : list (list coord))
| MultiPoint (cs : list coord)
| MultiLineString (ls : list (list coord))
| MultiPolygon (ps : list (list (list coord))).

Definition geom_type (g : geometry) : EXTENSION_NAME.t :=
  match g with
  | Point _ => EXTENSION_NAME.POINT
  | LineString _ => EXTENSION_NAME.LINESTRING
  | Polygon _ => EXTENSION_NAME.POLYGON
  | MultiPoint _ => EXTENSION_NAME.MULTIPOINT
  | MultiLineString _ => EXTENSION_NAME.MULTILINESTRING
  | MultiPolygon _ => EXTENSION_NAME.MULTIPOLYGON
  end.

Definition map_coords (f : coord → coord) (g : geometry) : geometry :=
  match g with
  | Point c => Point (f c)
  | LineString cs => LineString (map f cs)
  | Polygon rings => Polygon (map (map f) rings)
  | MultiPoint cs => MultiPoint (map f cs)
  | MultiLineString ls => MultiLineString (map (map f) ls)
  | MultiPolygon ps => MultiPolygon (map (map (map f)) ps)
  end.

(* Plain Python / Arrow scalars. Floats are idealised as rationals. *)
Inductive scalar : Type :=
| SInt (z : Z)
| SFloat (q : Q)
| SBool (b : bool)
| SStr (s : string)
| SList (xs : list Z).   (* a colour given as [r, g, b] or [r, g, b, a] *)

(* One cell of a table column. *)
Inductive cell : Type :=
| CGeom (g : geometry)
| CVal (s : scalar).

(* A [pyarrow.Table]: named columns in order, and the GeoArrow extension
   name carried by the geometry field's metadata. *)
Record Table : Type := mkTable {
  extension_name : EXTENSION_NAME.t;
  columns : list (string * list cell)
}.

(* [table.num_rows], which is also [len(table)]. *)
Definition num_rows (t : Table) : nat :=
  match columns t with
  | [] => 0
  | (_, c) :: _ => length c
  end.

(* Every column of a [pyarrow.Table] has [num_rows] rows. *)
Definition wf_table (t : Table) : Prop :=
  Forall (λ nc, length nc.2 = num_rows t) (columns t).

(** ** Values proposed for a trait *)

(* What reaches a cross-validator as [proposal["value"]]: the trait's own
   [validate] has already run, so array-likes arrive as [pa.Array] or
   [pa.ChunkedArray] and constants arrive as they were given. *)
Inductive value : Type :=
| Constant (s : scalar)
| PaArray (xs : list scalar)
| PaChunkedArray (chunks : list (list scalar)).

(* isinstance(v, (pa.ChunkedArray, pa.Array)) *)
Definition is_arrow_array (v : value) : bool :=
  match v with
  | Constant _ => false
  | PaArray _ | PaChunkedArray _ => true
  end.

(* len(v) for the two Arrow array classes. *)
Definition value_len (v : value) : nat :=
  match v with
  | Constant _ => 0
  | PaArray xs => length xs
  | PaChunkedArray chunks => length (concat chunks)
  end.

(** ** Layers *)

Inductive layer_class : Type :=
| Scatterplot | Path | SolidPolygon | Heatmap.

#[global] Instance layer_class_eq_dec : EqDecision layer_class.
Proof. solve_decision. Defined.

(* The state of a layer widget: its table, the traits that were assigned,
   keyed by trait name. A trait absent from [traits] still has its default. *)
Record Layer : Type := mkLayer {
  layer_cls : layer_class;
  table : Table;
  traits : gmap string value
}.

Definition accessor_length_msg : string :=
  "accessor must have same length as table".

Module ScatterplotLayer.
Definition allowed_geometry_types : gset EXTENSION_NAME.t :=
  {[ EXTENSION_NAME.POINT; EXTENSION_NAME.MULTIPOINT ]}.

(* @traitlets.validate(...) *)
Definition validated : list string :=
  ["get_radius"; "get_fill_color"; "get_line_color"; "get_line_width"].

Definition _validate_accessor_length (self : Layer) (proposal_value : value)
  : result exn value :=
  if is_arrow_array proposal_value then
    if negb (value_len proposal_value =? num_rows (table self))%nat then
      Err (TraitError accessor_length_msg)
    else Ok proposal_value
  else Ok proposal_value.

(* The traits declared as FloatAccessor() or ColorAccessor(). *)
Definition accessors : list string :=
  ["get_radius"; "get_fill_color"; "get_line_color"; "get_line_width"].

Definition own_traits : list string :=
  ["_layer_type"; "table"; "radius_units"; "radius_scale";
   "radius_min_pixels"; "radius_max_pixels"; "line_width_units";
   "line_width_scale"; "line_width_min_pixels"; "line_width_max_pixels";
   "stroked"; "filled"; "billboard"; "antialiasing"; "get_radius";
   "get_fill_color"; "get_line_color"; "get_line_width"].
End ScatterplotLayer.

Module PathLayer.
Definition allowed_geometry_types : gset EXTENSION_NAME.t :=
  {[ EXTENSION_NAME.LINESTRING; EXTENSION_NAME.MULTILINESTRING ]}.

Definition validated : list string := ["get_color"; "get_width"].

Definition _validate_accessor_length (self : Layer) (proposal_value : value)
  : result exn value :=
  if is_arrow_array proposal_value then
    if negb (value_len proposal_value =? num_rows (table self))%nat then
      Err (TraitError accessor_length_msg)
    else Ok proposal_value
  else Ok proposal_value.

(* The traits declared as FloatAccessor() or ColorAccessor(). *)
Definition accessors : list string :=
  ["get_color"; "get_width"].

Definition own_traits : list string :=
  ["_layer_type"; "table"; "width_units"; "width_scale"; "width_min_pixels";
   "width_max_pixels"; "joint_rounded"; "cap_rounded"; "miter_limit";
   "billboard"; "get_color"; "get_width"].
End PathLayer.

Module SolidPolygonLayer.
Definition allowed_geometry_types : gset EXTENSION_NAME.t :=
  {[ EXTENSION_NAME.POLYGON; EXTENSION_NAME.MULTIPOLYGON ]}.

Definition validated : list string :=
  ["get_elevation"; "get_fill_color"; "get_line_color"].

Definition _validate_accessor_length (self : Layer) (proposal_value : value)
  : result exn value :=
  if is_arrow_array proposal_value then
    if negb (value_len proposal_value =? num_rows (table self))%nat then
      Err (TraitError accessor_length_msg)
    else Ok proposal_value
  else Ok proposal_value.

(* The traits declared as FloatAccessor() or ColorAccessor(). *)
Definition accessors : list string :=
  ["get_elevation"; "get_fill_color"; "get_line_color"].

Definition own_traits : list string :=
  ["_layer_type"; "table"; "filled"; "extruded"; "wireframe";
   "elevation_scale"; "get_elevation"; "get_fill_color"; "get_line_color"].
End SolidPolygonLayer.

Module HeatmapLayer.
Definition allowed_geometry_types : gset EXTENSION_NAME.t :=
  {[ EXTENSION_NAME.POINT ]}.

Definition validated : list string := ["get_weight"].

Definition _validate_accessor_length (self : Layer) (proposal_value : value)
  : result exn value :=
  if is_arrow_array proposal_value then
    if negb (value_len proposal_value =? num_rows (table self))%nat then
      Err (TraitError accessor_length_msg)
    else Ok proposal_value
  else Ok proposal_value.

(* Overrides the inherited default: one heatmap for the entire dataset,
   not one per chunk. *)
Definition _default_rows_per_chunk (self : Layer) : Z :=
  Z.of_nat (num_rows (table self)).

(* The traits declared as FloatAccessor() or ColorAccessor(). *)
Definition accessors : list string :=
  ["get_weight"].

Definition own_traits : list string :=
  ["_layer_type"; "table"; "radius_pixels"; "intensity"; "threshold";
   "color_domain"; "aggregation"; "weights_texture_size";
   "debounce_timeout"; "get_weight"].
End HeatmapLayer.

(** ** GeoDataFrames, coordinate reference systems, the environment *)

(* A CRS is identified by its authority string; [==] on CRS objects is
   equality of identifiers. *)
Definition CRS : Type := string.

Record GeoDataFrame : Type := mkGeoDataFrame {
  gdf_crs : option CRS;                           (* gdf.crs, None if undeclared *)
  gdf_geometry : list geometry;                   (* the geometry column *)
  gdf_attributes : list (string * list scalar)    (* the other columns *)
}.

(* What [_layer.py] imports and this development takes as given. *)
Class Externals : Type := {
  EPSG_4326 : CRS;                                (* lonboard._constants *)
  OGC_84 : CRS;                                   (* lonboard._constants *)
  transform : CRS → CRS → coord → coord;          (* pyproj, behind to_crs *)
  downcast_frame : GeoDataFrame → GeoDataFrame;   (* lonboard._utils.auto_downcast *)
  table_nbytes : Table → Z;                       (* pyarrow.Table.nbytes *)
  DEFAULT_MAX_CHUNK_BYTES : Z;                    (* byte budget of the planner *)
  widget_trait_names : list string                (* traits of BaseWidget *)
}.

(** ** ChunkPlanner *)

Module ChunkPlanner.
Section planner.
Context `{Externals}.

(** Modelled from the spec: the estimate of section 4.3, total encoded size
    over row count, as an exact rational. *)
Definition bytes_per_row (t : Table) : Q :=
  (inject_Z (table_nbytes t) / inject_Z (Z.of_nat (num_rows t)))%Q.

(** Modelled from the spec: [max(1, floor(max_chunk_bytes / bytes_per_row))]
    of section 4.3, before the clamp to the row count. *)
Definition unclamped_rows (t : Table) (max_chunk_bytes : Z) : Z :=
  Z.max 1 (Qfloor (inject_Z max_chunk_bytes / bytes_per_row t)%Q).

(** Modelled from the spec: the body of [infer_rows_per_chunk] lives in
    [lonboard/_serialization.py], which is not among the sources; only
    its call in [BaseArrowLayer._default_rows_per_chunk] is. The
    definition follows section 4.3: bytes per row is the table's total
    encoded size over its row count, rows per chunk is
    [max(1, floor(max_chunk_bytes / bytes_per_row))], clamped to the row
    count. Quotients are exact rationals; a quotient by zero is 0. *)
Definition plan (t : Table) (max_chunk_bytes : Z) : Z :=
  Z.min (unclamped_rows t max_chunk_bytes) (Z.of_nat (num_rows t)).

Definition infer_rows_per_chunk (t : Table) : Z :=
  plan t DEFAULT_MAX_CHUNK_BYTES.
End planner.
End ChunkPlanner.

Module BaseArrowLayer.
Definition _default_rows_per_chunk `{Externals} (self : Layer) : Z :=
  ChunkPlanner.infer_rows_per_chunk (table self).
End BaseArrowLayer.

(* BaseLayer's own trait declarations. *)
Module BaseLayer.
Definition own_traits : list string :=
  ["extensions"; "pickable"; "visible"; "opacity"; "auto_highlight";
   "selected_index"; "_rows_per_chunk"].
End BaseLayer.

(* Method resolution: HeatmapLayer overrides the default, the other three
   classes inherit BaseArrowLayer's. *)
Definition default_rows_per_chunk `{Externals} (self : Layer) : Z :=
  match layer_cls self with
  | Heatmap => HeatmapLayer._default_rows_per_chunk self
  | Scatterplot | Path | SolidPolygon =>
      BaseArrowLayer._default_rows_per_chunk self
  end.

(* Reading the [_rows_per_chunk] trait: the dynamic default is used only
   when no value was assigned. *)
Definition rows_per_chunk `{Externals} (self : Layer) : Z :=
  match traits self !! "_rows_per_chunk" with
  | Some (Constant (SInt n)) => n
  | _ => default_rows_per_chunk self
  end.

(** ** Chunker *)

Module Chunker.
(** Modelled from the spec: a chunk is a contiguous row-range slice of the
    table (section 3), the same row range cut out of every column. *)
Definition slice (t : Table) (offset len : nat) : Table :=
  {| extension_name := extension_name t;
     columns := (λ nc, (nc.1, take len (drop offset nc.2))) <$> columns t |}.

(** Modelled from the spec: the chunks from row [offset] onwards, in
    ascending row order (section 4.4). *)
Fixpoint split_from (fuel : nat) (t : Table) (rows_per_chunk offset : nat)
  : list Table :=
  match fuel with
  | 0 => []
  | S fuel' =>
      if (offset <? num_rows t)%nat then
        slice t offset rows_per_chunk
          :: split_from fuel' t rows_per_chunk (offset + rows_per_chunk)
      else []
  end.

(** Modelled from the spec: the chunker is part of
    [lonboard/_serialization.py], which is not among the sources. Following
    section 4.4 it walks the rows in ascending order, cutting a chunk of
    [rows_per_chunk] rows (fewer at the end) out of every column at each
    step, until the rows are exhausted. One step per row is always enough
    when [rows_per_chunk >= 1]. *)
Definition split (t : Table) (rows_per_chunk : nat) : list Table :=
  split_from (num_rows t) t rows_per_chunk 0.

(* The i-th column of a table, and of each chunk in turn. *)
Definition column (i : nat) (t : Table) : list cell :=
  default [] (snd <$> columns t !! i).

Definition concat_column (i : nat) (chunks : list Table) : list cell :=
  concat (column i <$> chunks).

(* ceil(n / d) on naturals, and as the spec writes it on rationals. *)
Definition ceil_div (n d : nat) : nat := (n + d - 1) / d.

Definition ceil_ratio (n d : nat) : Z :=
  Qceiling (inject_Z (Z.of_nat n) / inject_Z (Z.of_nat d))%Q.
End Chunker.

(** ** GeometryEncoder and the table trait *)

Module GeometryEncoder.
Record GeometryColumn : Type := mkGeometryColumn {
  column_type : EXTENSION_NAME.t;
  column_rows : list geometry
}.

(** Modelled from the spec: geometry type detection belongs to
    [lonboard/_geoarrow/geopandas_interop.py], which is not among the
    sources. Per section 4.1 every geometry must have the same type; an
    empty sequence and a sequence of mixed types have no detected type. *)
Definition detect_geometry_type (geoms : list geometry)
  : result exn EXTENSION_NAME.t :=
  match geoms with
  | [] => Err UnsupportedGeometryError
  | g :: rest =>
      if forallb (λ g', bool_decide (geom_type g' = geom_type g)) rest
      then Ok (geom_type g)
      else Err UnsupportedGeometryError
  end.

(** Modelled from the spec: the check a [PyarrowTableTrait] makes against
    its [allowed_geometry_types] is in [lonboard/traits.py], which is not
    among the sources; the allow-lists themselves are. *)
Definition gate (allowed : gset EXTENSION_NAME.t) (ty : EXTENSION_NAME.t)
  : result exn EXTENSION_NAME.t :=
  if bool_decide (ty ∈ allowed) then Ok ty else Err UnsupportedGeometryError.

(** Modelled from the spec: [encode(geometries, allowed_types)] of section
    4.1, the detection followed by the gate. *)
Definition encode (geoms : list geometry) (allowed : gset EXTENSION_NAME.t)
  : result exn GeometryColumn :=
  ty ← detect_geometry_type geoms;
  ty ← gate allowed ty;
  Ok {| column_type := ty; column_rows := geoms |}.

(* The family a type belongs to: Point/MultiPoint, and so on. *)
Inductive family : Type := PointLike | LineLike | PolygonLike.

Definition fundamental (ty : EXTENSION_NAME.t) : family :=
  match ty with
  | EXTENSION_NAME.POINT | EXTENSION_NAME.MULTIPOINT => PointLike
  | EXTENSION_NAME.LINESTRING | EXTENSION_NAME.MULTILINESTRING => LineLike
  | EXTENSION_NAME.POLYGON | EXTENSION_NAME.MULTIPOLYGON => PolygonLike
  end.
End GeometryEncoder.

(** Modelled from the spec: [geopandas_to_geoarrow] is defined in
    [lonboard/_geoarrow/geopandas_interop.py], which is not among the
    sources. On the contents of a frame it yields the geometry column, tagged
    with the detected type, followed by the attribute columns, row for row. *)
Definition frame_to_geoarrow (g : GeoDataFrame) : result exn Table :=
  ty ← GeometryEncoder.detect_geometry_type (gdf_geometry g);
  Ok {| extension_name := ty;
        columns := ("geometry", CGeom <$> gdf_geometry g)
                   :: ((λ nc : string * list scalar, (nc.1, CVal <$> nc.2))
                         <$> gdf_attributes g) |}.

Module PyarrowTableTrait.
(** Modelled from the spec: the trait class is defined in
    [lonboard/traits.py], which is not among the sources. A table passes
    when the type of its geometry column is in the declared allow-list. *)
Definition validate (allowed : gset EXTENSION_NAME.t) (t : Table)
  : result exn Table :=
  _ ← GeometryEncoder.gate allowed (extension_name t);
  Ok t.
End PyarrowTableTrait.

(** ** Assigning traits and constructing a layer *)

Definition allowed_geometry_types (cls : layer_class) : gset EXTENSION_NAME.t :=
  match cls with
  | Scatterplot => ScatterplotLayer.allowed_geometry_types
  | Path => PathLayer.allowed_geometry_types
  | SolidPolygon => SolidPolygonLayer.allowed_geometry_types
  | Heatmap => HeatmapLayer.allowed_geometry_types
  end.

(* The trait names each class registers with [@traitlets.validate]. *)
Definition validated_accessors (cls : layer_class) : list string :=
  match cls with
  | Scatterplot => ScatterplotLayer.validated
  | Path => PathLayer.validated
  | SolidPolygon => SolidPolygonLayer.validated
  | Heatmap => HeatmapLayer.validated
  end.

(* The accessor traits of each class. *)
Definition accessor_traits (cls : layer_class) : list string :=
  match cls with
  | Scatterplot => ScatterplotLayer.accessors
  | Path => PathLayer.accessors
  | SolidPolygon => SolidPolygonLayer.accessors
  | Heatmap => HeatmapLayer.accessors
  end.

Definition _validate_accessor_length (self : Layer) (proposal_value : value)
  : result exn value :=
  match layer_cls self with
  | Scatterplot => ScatterplotLayer._validate_accessor_length self proposal_value
  | Path => PathLayer._validate_accessor_length self proposal_value
  | SolidPolygon => SolidPolygonLayer._validate_accessor_length self proposal_value
  | Heatmap => HeatmapLayer._validate_accessor_length self proposal_value
  end.

(* traitlets runs the registered cross-validator, if any, on the proposal. *)
Definition cross_validate (self : Layer) (name : string) (v : value)
  : result exn value :=
  if bool_decide (name ∈ validated_accessors (layer_cls self))
  then _validate_accessor_length self v
  else Ok v.

(* layer.<name> = v for a trait other than [table], whose value is a field
   of its own and is given to the constructor separately. [v] is the
   proposal as it reaches the cross-validators, after the trait's own
   validation and coercion. On success the validator's return value is
   stored, on failure the layer keeps its previous state. *)
Definition set_trait (self : Layer) (name : string) (v : value)
  : result exn Layer :=
  v' ← cross_validate self name v;
  Ok {| layer_cls := layer_cls self;
        table := table self;
        traits := <[name := v']> (traits self) |}.

Fixpoint set_traits (self : Layer) (kwargs : list (string * value))
  : result exn Layer :=
  match kwargs with
  | [] => Ok self
  | (name, v) :: rest => self' ← set_trait self name v; set_traits self' rest
  end.

Definition own_traits (cls : layer_class) : list string :=
  match cls with
  | Scatterplot => ScatterplotLayer.own_traits
  | Path => PathLayer.own_traits
  | SolidPolygon => SolidPolygonLayer.own_traits
  | Heatmap => HeatmapLayer.own_traits
  end.

(* The declared schema of a layer class: every trait it declares or
   inherits. *)
Definition trait_names `{Externals} (cls : layer_class) : list string :=
  widget_trait_names ++ BaseLayer.own_traits ++ own_traits cls.

(** Modelled from the spec: the rejection of unknown keyword names happens in
    [BaseWidget.__init__] ([lonboard/_base.py]), which is not among the
    sources; the trait declarations that make up the schema are, and so is
    the test of the rejection. Per section 4.2 the offending names are
    enumerated, in the order they were given. *)
Definition unknown_names `{Externals} (cls : layer_class)
  (kwargs : list (string * value)) : list string :=
  filter (λ n, n ∉ trait_names cls) kwargs.*1.

(* Does [s] begin with [sub]? *)
Fixpoint starts_with (sub s : string) : bool :=
  match sub, s with
  | EmptyString, _ => true
  | String a sub', String b s' => Ascii.eqb a b && starts_with sub' s'
  | String _ _, EmptyString => false
  end.

(* Does [sub] occur in [s]? This is what [pytest.raises(..., match=sub)]
   asks of an error message when [sub] has no pattern characters. *)
Fixpoint occurs_in (sub s : string) : bool :=
  starts_with sub s
  || match s with
     | EmptyString => false
     | String _ s' => occurs_in sub s'
     end.

(* The names one after the other, each in single quotes. *)
Fixpoint quoted (names : list string) : string :=
  match names with
  | [] => EmptyString
  | n :: rest => " '" ++ n ++ "'" ++ quoted rest
  end.

(** Modelled from the spec: the message is composed in
    [BaseWidget.__init__] ([lonboard/_base.py]), which is not among the
    sources. The repository's test fixes the exception class, the builtin
    TypeError, and the words "unexpected keyword argument"; section 4.2 adds
    that the offending names are enumerated. *)
Definition unexpected_keyword_msg (names : list string) : string :=
  "unexpected keyword argument" ++ quoted names.

(* cls(table=table, **kwargs) *)
Definition construct `{Externals} (cls : layer_class) (t : Table)
  (kwargs : list (string * value)) : result exn Layer :=
  match unknown_names cls kwargs with
  | [] =>
      t ← PyarrowTableTrait.validate (allowed_geometry_types cls) t;
      set_traits {| layer_cls := cls; table := t; traits := ∅ |} kwargs
  | names => Err (TypeError (unexpected_keyword_msg names))
  end.

(** ** The object store and [from_geopandas] *)

Definition loc : Type := positive.

(* GeoDataFrames are mutable objects held by reference; warnings accumulate
   in the order they were issued. *)
Record world : Type := mkWorld {
  heap : gmap loc GeoDataFrame;
  emitted : list string
}.

Definition Py (A : Type) : Type := world → result exn A * world.

#[global] Instance Py_ret : MRet Py := λ _ a w, (Ok a, w).
#[global] Instance Py_bind : MBind Py := λ _ _ f m w,
  match m w with
  | (Ok a, w') => f a w'
  | (Err e, w') => (Err e, w')
  end.

Definition lift {A} (r : result exn A) : Py A := λ w, (r, w).

Definition read (r : loc) : Py GeoDataFrame := λ w,
  match heap w !! r with
  | Some g => (Ok g, w)
  | None => (Err InvalidReference, w)
  end.

Definition write (r : loc) (g : GeoDataFrame) : Py unit := λ w,
  (Ok (), {| heap := <[r := g]> (heap w); emitted := emitted w |}).

Definition alloc (g : GeoDataFrame) : Py loc := λ w,
  let r := fresh (dom (heap w)) in
  (Ok r, {| heap := <[r := g]> (heap w); emitted := emitted w |}).

(* warnings.warn(msg) *)
Definition warn (msg : string) : Py unit := λ w,
  (Ok (), {| heap := heap w; emitted := emitted w ++ [msg] |}).

Definition reprojection_warning : string :=
  "GeoDataFrame being reprojected to EPSG:4326".

(* The contents of gdf.to_crs(target): same rows, every coordinate
   transformed from the frame's CRS, the new CRS declared. *)
Definition reproject `{Externals} (src target : CRS) (g : GeoDataFrame)
  : GeoDataFrame :=
  {| gdf_crs := Some target;
     gdf_geometry := map_coords (transform src target) <$> gdf_geometry g;
     gdf_attributes := gdf_attributes g |}.

(* gdf.to_crs(target): a new frame is returned, the receiver is not
   modified. geopandas refuses a frame without a CRS. *)
Definition to_crs `{Externals} (gdf : loc) (target : CRS) : Py loc :=
  g ← read gdf;
  match gdf_crs g with
  | Some src => alloc (reproject src target g)
  | None => lift (Err (ValueError "Cannot transform naive geometries"))
  end.

(* gdf.copy() *)
Definition copy (gdf : loc) : Py loc :=
  g ← read gdf; alloc g.

(* _auto_downcast(df): free to overwrite the frame it is handed, which it
   returns. *)
Definition _auto_downcast `{Externals} (df : loc) : Py loc :=
  g ← read df;
  _ ← write df (downcast_frame g);
  mret df.

Definition geopandas_to_geoarrow (gdf : loc) : Py Table :=
  g ← read gdf; lift (frame_to_geoarrow g).

(* gdf.crs and gdf.crs not in [EPSG_4326, OGC_84] *)
Definition needs_reprojection `{Externals} (g : GeoDataFrame) : bool :=
  match gdf_crs g with
  | Some c => negb (bool_decide (c ∈ [EPSG_4326; OGC_84]))
  | None => false
  end.

(* cls(table=table, **kwargs): Python itself rejects a second [table]. *)
Definition call_cls `{Externals} (cls : layer_class) (t : Table)
  (kwargs : list (string * value)) : result exn Layer :=
  if bool_decide ("table" ∈ kwargs.*1) then
    Err (TypeError "got multiple values for keyword argument 'table'")
  else construct cls t kwargs.

Definition from_geopandas `{Externals} (cls : layer_class) (gdf : loc)
  (auto_downcast : bool) (kwargs : list (string * value)) : Py Layer :=
  g ← read gdf;
  gdf ← (if needs_reprojection g then
           _ ← warn reprojection_warning;
           to_crs gdf OGC_84
         else mret gdf);
  gdf ← (if auto_downcast then
           c ← copy gdf;
           _auto_downcast c
         else mret gdf);
  t ← geopandas_to_geoarrow gdf;
  lift (call_cls cls t kwargs).

(* What the last two statements of [from_geopandas] compute from the
   contents of the frame they are given. *)
Definition layer_of_frame `{Externals} (cls : layer_class)
  (kwargs : list (string * value)) (g : GeoDataFrame) : result exn Layer :=
  t ← frame_to_geoarrow g; call_cls cls t kwargs.

(* The frame bound to the local name [gdf] after the first statement of
   [from_geopandas], and the world that statement leaves. *)
Definition reprojection_step `{Externals} (g : GeoDataFrame) (w : world)
  : GeoDataFrame * world :=
  match gdf_crs g with
  | Some c =>
      if needs_reprojection g then
        (reproject c OGC_84 g,
         {| heap := <[fresh (dom (heap w)) := reproject c OGC_84 g]> (heap w);
            emitted := emitted w ++ [reprojection_warning] |})
      else (g, w)
  | None => (g, w)
  end.

(* The same for its second statement. *)
Definition downcast_step `{Externals} (auto_downcast : bool)
  (g : GeoDataFrame) (w : world) : GeoDataFrame * world :=
  if auto_downcast then
    (downcast_frame g,
     {| heap := <[fresh (dom (heap w)) := downcast_frame g]> (heap w);
        emitted := emitted w |})
  else (g, w).

(** ** Sample data *)

(* One possible environment: axis-swapping stands in for the projection,
   downcasting changes nothing, every row takes 40 bytes. *)
Definition sample_env : Externals :=
  {| EPSG_4326 := "EPSG:4326";
     OGC_84 := "OGC:CRS84";
     transform := λ _ _ c, (c.2, c.1);
     downcast_frame := λ g, g;
     table_nbytes := λ t, (40 * Z.of_nat (num_rows t))%Z;
     DEFAULT_MAX_CHUNK_BYTES := 1000000;
     widget_trait_names := [] |}.

(* gpd.GeoDataFrame(geometry=shapely.points([1, 2], [3, 4])) *)
Definition two_points : GeoDataFrame :=
  {| gdf_crs := None;
     gdf_geometry := [Point (1, 3)%Q; Point (2, 4)%Q];
     gdf_attributes := [] |}.

Definition two_points_mercator : GeoDataFrame :=
  {| gdf_crs := Some "EPSG:3857";
     gdf_geometry := [Point (1, 3)%Q; Point (2, 4)%Q];
     gdf_attributes := [] |}.

Definition sample_world (g : GeoDataFrame) : world :=
  {| heap := {[ 1%positive := g ]}; emitted := [] |}.

Definition two_points_table : Table :=
  {| extension_name := EXTENSION_NAME.POINT;
     columns := [("geometry", [CGeom (Point (1, 3)%Q); CGeom (Point (2, 4)%Q)])] |}.

Definition two_points_layer : Layer :=
  {| layer_cls := Scatterplot; table := two_points_table; traits := ∅ |}.

Definition two_points_heatmap : Layer :=
  {| layer_cls := Heatmap; table := two_points_table; traits := ∅ |}.

(* Ten rows: a geometry column and a per-row radius. *)
Definition ten_rows : Table :=
  {| extension_name := EXTENSION_NAME.POINT;
     columns :=
       [("geometry",
         (λ i, CGeom (Point (inject_Z (Z.of_nat i), 0%Q))) <$> seq 0 10);
        ("get_radius", (λ i, CVal (SInt (Z.of_nat i))) <$> seq 0 10)] |}.

(* 10,000 rows, which [sample_env] sizes at 40 bytes each. *)
Definition ten_thousand_rows : Table :=
  {| extension_name := EXTENSION_NAME.POINT;
     columns := [("geometry", replicate (100 * 100) (CGeom (Point (0, 0)%Q)))] |}.

Definition radius (xs : list Z) : list (string * value) :=
  [("get_radius", PaArray (SInt <$> xs))].

(** ** Keywords that pass the accessor validators *)

(* What one cross-validator run decides about a keyword, given the class
   and the table's row count: it objects only to an Arrow array of another
   length under a name it is registered for. *)
Definition length_fits (cls : layer_class) (n_rows : nat)
  (kw : string * value) : bool :=
  negb (bool_decide (kw.1 ∈ validated_accessors cls)
        && is_arrow_array kw.2
        && negb (value_len kw.2 =? n_rows)%nat).

(* Storing keywords one after the other, later ones over earlier ones. *)
Definition store_all (m : gmap string value) (kwargs : list (string * value))
  : gmap string value :=
  foldl (λ m kw, <[kw.1 := kw.2]> m) m kwargs.

(* The same two points, declared as EPSG:4326. *)
Definition two_points_wgs84 : GeoDataFrame :=
  {| gdf_crs := Some "EPSG:4326";
     gdf_geometry := [Point (1, 3)%Q; Point (2, 4)%Q];
     gdf_attributes := [] |}.

Definition radius_and_width : list (string * value) :=
  [("get_radius", PaArray [SInt 1; SInt 2]);
   ("get_line_width", Constant (SInt 3))].

Definition width_and_radius : list (string * value) :=
  [("get_line_width", Constant (SInt 3));
   ("get_radius", PaArray [SInt 1; SInt 2])].

(** * Properties *)

Local Open Scope nat_scope.

(** ** Arithmetic of chunk counts *)

Section ceil_div_facts.
Import Chunker.

Lemma ceil_div_0 (d : nat) : 1 ≤ d → ceil_div 0 d = 0.
Proof. intros Hd. unfold ceil_div. apply Nat.div_small. lia. Qed.

Lemma ceil_div_step (n d : nat) :
  1 ≤ d → 0 < n → ceil_div n d = S (ceil_div (n - d) d).
Proof.
  intros Hd Hn. unfold ceil_div.
  destruct (decide (n ≤ d)) as [Hle|Hgt].
  - replace (n - d) with 0 by lia.
    rewrite (Nat.div_small (0 + d - 1) d) by lia.
    symmetry. apply (Nat.div_unique _ _ _ (n - 1)); lia.
  - replace (n + d - 1) with ((n - d + d - 1) + 1 * d) by lia.
    rewrite Nat.div_add by lia. lia.
Qed.

(* ceil_div n d is the least number of d-sized blocks that cover n. *)
Lemma ceil_div_bounds (n d : nat) :
  1 ≤ d → 1 ≤ n → (ceil_div n d - 1) * d < n ∧ n ≤ ceil_div n d * d.
Proof.
  intros Hd Hn. unfold ceil_div.
  pose proof (Nat.div_mod_eq (n + d - 1) d) as Hdm.
  pose proof (Nat.mod_upper_bound (n + d - 1) d ltac:(lia)) as Hr.
  set (q := (n + d - 1) / d) in *. set (r := (n + d - 1) mod d) in *.
  assert (1 ≤ q) by (destruct q; [nia | lia]).
  split; nia.
Qed.

Lemma ceil_div_mod (n d : nat) :
  1 ≤ d →
  ceil_div n d = if (n mod d =? 0) then n / d else S (n / d).
Proof.
  intros Hd. unfold ceil_div.
  pose proof (Nat.div_mod_eq n d) as Hdm.
  pose proof (Nat.mod_upper_bound n d ltac:(lia)) as Hr.
  destruct (Nat.eqb_spec (n mod d) 0) as [H0|H0]; symmetry.
  - apply (Nat.div_unique _ _ _ (d - 1)); lia.
  - apply (Nat.div_unique _ _ _ (n mod d - 1)); lia.
Qed.

(* The rational ceiling of n / d is the same number. *)
Lemma ceil_ratio_ceil_div (n d : nat) :
  1 ≤ d → ceil_ratio n d = Z.of_nat (ceil_div n d).
Proof.
  intros Hd. unfold ceil_ratio, ceil_div.
  rewrite Nat2Z.inj_div.
  replace (Z.of_nat (n + d - 1)) with (Z.of_nat n + Z.of_nat d - 1)%Z by lia.
  assert (0 < Z.of_nat d)%Z as Hpos by lia.
  destruct (Z.of_nat d) as [|p|p] eqn:Ed; try lia.
  unfold Qceiling, Qfloor, Qdiv, Qinv, Qmult, Qopp, inject_Z. simpl.
  rewrite Z.mul_1_r.
  set (a := Z.of_nat n).
  pose proof (Z.div_mod (a + Z.pos p - 1) (Z.pos p) ltac:(lia)) as Hdm.
  pose proof (Z.mod_pos_bound (a + Z.pos p - 1) (Z.pos p) ltac:(lia)) as Hr.
  rewrite Pos.mul_1_l.
  assert (- a / Z.pos p = - ((a + Z.pos p - 1) / Z.pos p))%Z as ->; [|lia].
  symmetry.
  apply (Z.div_unique _ _ _ (Z.pos p - 1 - (a + Z.pos p - 1) mod Z.pos p));
    lia.
Qed.
End ceil_div_facts.

(** ** Chunker: slices and the chunk sequence *)

Section chunker_facts.
Import Chunker.

Lemma num_rows_slice (t : Table) (offset len : nat) :
  num_rows (slice t offset len) = len `min` (num_rows t - offset).
Proof.
  unfold num_rows, slice; simpl.
  destruct (columns t) as [|[name c] cs]; simpl.
  - lia.
  - by rewrite length_take, length_drop.
Qed.

Lemma column_slice (i : nat) (t : Table) (offset len : nat) :
  column i (slice t offset len) = take len (drop offset (column i t)).
Proof.
  unfold column, slice; simpl. rewrite list_lookup_fmap.
  destruct (columns t !! i) as [[name c]|]; simpl; [done|].
  by rewrite drop_nil, take_nil.
Qed.

Lemma column_names_slice (t : Table) (offset len : nat) :
  (columns (slice t offset len)).*1 = (columns t).*1.
Proof.
  unfold slice; simpl. rewrite <- list_fmap_compose.
  by apply list_fmap_ext.
Qed.

Lemma wf_table_slice (t : Table) (offset len : nat) :
  wf_table t → wf_table (slice t offset len).
Proof.
  unfold wf_table. intros Hwf. rewrite num_rows_slice.
  unfold slice; simpl. rewrite Forall_fmap.
  eapply Forall_impl; [exact Hwf|].
  intros [name c] Hc; simpl in *.
  by rewrite length_take, length_drop, Hc.
Qed.

Lemma column_length (i : nat) (t : Table) :
  wf_table t → length (column i t) ≤ num_rows t.
Proof.
  intros Hwf. unfold column.
  destruct (columns t !! i) as [[name c]|] eqn:Hi; simpl; [|lia].
  unfold wf_table in Hwf. rewrite Forall_lookup in Hwf.
  specialize (Hwf _ _ Hi). simpl in Hwf. lia.
Qed.

(* The loop, unrolled: chunk j starts at row offset + j * rows_per_chunk. *)
Lemma split_from_unrolled (fuel : nat) (t : Table) (rpc offset : nat) :
  1 ≤ rpc → num_rows t - offset ≤ fuel →
  split_from fuel t rpc offset =
    (λ j, slice t (offset + j * rpc) rpc)
      <$> seq 0 (ceil_div (num_rows t - offset) rpc).
Proof.
  intros Hrpc. revert offset.
  induction fuel as [|fuel IH]; intros offset Hfuel; simpl.
  - replace (num_rows t - offset) with 0 by lia.
    by rewrite ceil_div_0.
  - destruct (Nat.ltb_spec offset (num_rows t)) as [Hlt|Hge].
    + rewrite (ceil_div_step (num_rows t - offset) rpc) by lia.
      rewrite IH by lia. simpl.
      rewrite Nat.add_0_r. f_equal.
      rewrite <- fmap_S_seq, <- list_fmap_compose.
      replace (num_rows t - offset - rpc)
        with (num_rows t - (offset + rpc)) by lia.
      apply list_fmap_ext. intros _ j _. simpl. f_equal. lia.
    + replace (num_rows t - offset) with 0 by lia.
      by rewrite ceil_div_0.
Qed.

Lemma split_unrolled (t : Table) (rpc : nat) :
  1 ≤ rpc →
  split t rpc =
    (λ j, slice t (j * rpc) rpc) <$> seq 0 (ceil_div (num_rows t) rpc).
Proof.
  intros Hrpc. unfold split.
  rewrite split_from_unrolled by lia.
  by rewrite Nat.sub_0_r.
Qed.

Lemma length_split (t : Table) (rpc : nat) :
  1 ≤ rpc → length (split t rpc) = ceil_div (num_rows t) rpc.
Proof.
  intros Hrpc. by rewrite split_unrolled, length_fmap, length_seq.
Qed.

Lemma lookup_split (t : Table) (rpc j : nat) (chunk : Table) :
  1 ≤ rpc →
  split t rpc !! j = Some chunk ↔
    j < ceil_div (num_rows t) rpc ∧ chunk = slice t (j * rpc) rpc.
Proof.
  intros Hrpc. rewrite split_unrolled by done.
  rewrite list_lookup_fmap. split.
  - destruct (seq 0 _ !! j) as [j'|] eqn:Hj; simpl; [|done].
    apply lookup_seq in Hj as [-> Hlt]. intros [= <-]. done.
  - intros [Hlt ->]. by rewrite lookup_seq_lt.
Qed.

(* Gluing the chunks cut from offset onwards gives back the rows from
   offset onwards. *)
Lemma concat_column_split_from (i fuel : nat) (t : Table) (rpc offset : nat) :
  wf_table t → 1 ≤ rpc → num_rows t - offset ≤ fuel →
  concat_column i (split_from fuel t rpc offset) = drop offset (column i t).
Proof.
  intros Hwf Hrpc. pose proof (column_length i t Hwf) as Hlen.
  unfold concat_column. revert offset.
  induction fuel as [|fuel IH]; intros offset Hfuel; simpl.
  - symmetry. apply drop_ge. lia.
  - destruct (Nat.ltb_spec offset (num_rows t)) as [Hlt|Hge]; simpl.
    + rewrite IH by lia. rewrite column_slice.
      rewrite <- drop_drop. apply take_drop.
    + symmetry. apply drop_ge. lia.
Qed.
End chunker_facts.

(** C3. For every table whose columns all have the table's row count and
    every rows_per_chunk of at least 1,
    gluing the chunks of [split] in sequence order gives back every column of
    the table, rows in their original order. Chunk j is the slice of every
    column over one and the same row range, starting at row
    j * rows_per_chunk, under the table's own column names; so row k of
    chunk j (any k below rows_per_chunk) is row j * rows_per_chunk + k of
    the table, in every column. *)
Theorem split_round_trip (t : Table) (rows_per_chunk : nat) :
  wf_table t → 1 ≤ rows_per_chunk →
  (∀ i, Chunker.concat_column i (Chunker.split t rows_per_chunk)
        = Chunker.column i t)
  ∧ (∀ j chunk, Chunker.split t rows_per_chunk !! j = Some chunk →
       chunk = Chunker.slice t (j * rows_per_chunk) rows_per_chunk
       ∧ (columns chunk).*1 = (columns t).*1
       ∧ ∀ i k, k < rows_per_chunk →
           Chunker.column i chunk !! k
           = Chunker.column i t !! (j * rows_per_chunk + k)).
Proof.
  intros Hwf Hrpc. split.
  - intros i. unfold Chunker.split.
    rewrite concat_column_split_from by (done || lia).
    apply drop_0.
  - intros j chunk Hj. apply lookup_split in Hj as [_ ->]; [|done].
    split_and!; [done|apply column_names_slice|].
    intros i k Hk. rewrite column_slice.
    by rewrite lookup_take_lt, lookup_drop.
Qed.

(** C4. For every table with at least one row and every rows_per_chunk of at
    least 1, [split] yields ceil(R / rows_per_chunk) chunks; each chunk but
    the last has rows_per_chunk rows; the last has R mod rows_per_chunk rows,
    or rows_per_chunk rows when the division is exact. When the table's
    columns all have its row count, so do the columns of every chunk. *)
Theorem split_chunk_sizes (t : Table) (rows_per_chunk : nat) :
  1 ≤ num_rows t → 1 ≤ rows_per_chunk →
  let chunks := Chunker.split t rows_per_chunk in
  Z.of_nat (length chunks) = Chunker.ceil_ratio (num_rows t) rows_per_chunk
  ∧ (∀ j chunk, chunks !! j = Some chunk → S j < length chunks →
       num_rows chunk = rows_per_chunk)
  ∧ (∃ chunk, last chunks = Some chunk
       ∧ num_rows chunk =
           if (num_rows t mod rows_per_chunk =? 0) then rows_per_chunk
           else num_rows t mod rows_per_chunk)
  ∧ (wf_table t → Forall wf_table chunks).
Proof.
  intros HR Hrpc chunks. subst chunks.
  pose proof (ceil_div_bounds (num_rows t) rows_per_chunk Hrpc HR) as [Hlo Hhi].
  pose proof (ceil_div_mod (num_rows t) rows_per_chunk Hrpc) as Hmod.
  pose proof (Nat.div_mod_eq (num_rows t) rows_per_chunk) as Hdm.
  pose proof (Nat.mod_upper_bound (num_rows t) rows_per_chunk ltac:(lia)) as Hr.
  rewrite length_split by done.
  set (n := Chunker.ceil_div (num_rows t) rows_per_chunk) in *.
  assert (1 ≤ n) as Hn by (destruct n; [lia | lia]).
  split_and!.
  - by rewrite ceil_ratio_ceil_div.
  - intros j chunk Hj Hlt. apply lookup_split in Hj as [_ ->]; [|done].
    rewrite num_rows_slice. nia.
  - exists (Chunker.slice t ((n - 1) * rows_per_chunk) rows_per_chunk). split.
    + rewrite last_lookup, length_split by done. fold n.
      apply lookup_split; [done|]. fold n.
      split; [lia|]. by replace (pred n) with (n - 1) by lia.
    + rewrite num_rows_slice.
      destruct (Nat.eqb_spec (num_rows t mod rows_per_chunk) 0) as [H0|H0]; nia.
  - intros Hwf. apply Forall_lookup. intros j chunk Hj.
    apply lookup_split in Hj as [_ ->]; [|done].
    by apply wf_table_slice.
Qed.

(** ** Accessor length validation *)

(* [pa.ChunkedArray.__len__] sums its chunks. *)
Lemma value_len_chunked (chunks : list (list scalar)) :
  value_len (PaChunkedArray chunks) = sum_list (length <$> chunks).
Proof.
  simpl. induction chunks as [|c cs IH]; simpl; [done|].
  by rewrite length_app, IH.
Qed.

(* The four classes carry the same validator body. *)
Lemma _validate_accessor_length_unfold (self : Layer) (v : value) :
  _validate_accessor_length self v =
    if is_arrow_array v then
      if negb (value_len v =? num_rows (table self)) then
        Err (TraitError accessor_length_msg)
      else Ok v
    else Ok v.
Proof. unfold _validate_accessor_length. by destruct (layer_cls self). Qed.

Lemma set_trait_validated (self : Layer) (name : string) (v : value) :
  name ∈ validated_accessors (layer_cls self) →
  set_trait self name v =
    v' ← _validate_accessor_length self v;
    Ok {| layer_cls := layer_cls self; table := table self;
          traits := <[name := v']> (traits self) |}.
Proof.
  intros Hin. unfold set_trait, cross_validate.
  by rewrite bool_decide_eq_true_2.
Qed.

(* Every accessor a class declares is registered with its validator. *)
Lemma accessor_traits_validated (cls : layer_class) :
  accessor_traits cls = validated_accessors cls.
Proof. by destruct cls. Qed.

(** C1. For every layer, whatever its table's row count N, and every accessor
    trait of its class: assigning an Arrow array whose length differs from N
    fails with the TraitError "accessor must have same length as table" (the
    length-mismatch error); assigning one of length N succeeds and stores it;
    assigning a constant succeeds whatever N is. *)
Theorem accessor_length_validation (self : Layer) (name : string) (v : value) :
  name ∈ accessor_traits (layer_cls self) →
  (is_arrow_array v = true → value_len v ≠ num_rows (table self) →
     set_trait self name v = Err (TraitError accessor_length_msg))
  ∧ (is_arrow_array v = true → value_len v = num_rows (table self) →
     set_trait self name v =
       Ok {| layer_cls := layer_cls self; table := table self;
             traits := <[name := v]> (traits self) |})
  ∧ (is_arrow_array v = false →
     set_trait self name v =
       Ok {| layer_cls := layer_cls self; table := table self;
             traits := <[name := v]> (traits self) |}).
Proof.
  intros Hin. rewrite accessor_traits_validated in Hin.
  rewrite set_trait_validated by done.
  rewrite _validate_accessor_length_unfold.
  split_and!.
  - intros -> Hne. by apply Nat.eqb_neq in Hne as ->.
  - intros -> Heq. by apply Nat.eqb_eq in Heq as ->.
  - by intros ->.
Qed.

(** ** Chunk planning *)

Section planner_facts.
Context `{Externals}.
Import ChunkPlanner.

Lemma Qfloor_budget_over_row_size (nbytes R budget : Z) :
  (0 < nbytes)%Z → (0 < R)%Z →
  Qfloor (inject_Z budget / (inject_Z nbytes / inject_Z R))%Q
  = (budget * R / nbytes)%Z.
Proof.
  intros Hn HR.
  destruct nbytes as [|n|n]; try lia. destruct R as [|r|r]; try lia.
  unfold Qfloor, Qdiv, Qinv, Qmult, inject_Z; simpl.
  by rewrite Pos.mul_1_r, Pos.mul_1_l.
Qed.

Lemma plan_clamped (t : Table) (budget : Z) :
  1 ≤ num_rows t →
  (1 ≤ plan t budget ≤ Z.of_nat (num_rows t))%Z.
Proof. intros HR. unfold plan, unclamped_rows. lia. Qed.
End planner_facts.

(** C2. For every table with R >= 1 rows and every max_chunk_bytes > 0, the
    plan is max(1, floor(max_chunk_bytes / bytes_per_row)) clamped to at most
    R, where bytes_per_row is the table's total encoded size over R; so
    1 <= plan <= R. When the encoded size is positive that floor is the
    integer quotient of max_chunk_bytes * R by the encoded size. *)
Theorem planner_bounds `{Externals} (t : Table) (max_chunk_bytes : Z) :
  1 ≤ num_rows t → (0 < max_chunk_bytes)%Z →
  let R := Z.of_nat (num_rows t) in
  let bytes_per_row := (inject_Z (table_nbytes t) / inject_Z R)%Q in
  let rows := Qfloor (inject_Z max_chunk_bytes / bytes_per_row)%Q in
  ChunkPlanner.plan t max_chunk_bytes = Z.min (Z.max 1 rows) R
  ∧ (1 ≤ ChunkPlanner.plan t max_chunk_bytes ≤ R)%Z
  ∧ ((0 < table_nbytes t)%Z →
       rows = (max_chunk_bytes * R / table_nbytes t)%Z).
Proof.
  intros HR Hmax R bytes_per_row rows. split; [|split].
  - done.
  - by apply plan_clamped.
  - intros Hbytes. subst rows bytes_per_row R.
    apply Qfloor_budget_over_row_size; lia.
Qed.

(* The default of the three inheriting classes stays within the same
   bounds, whatever the byte budget. *)
Lemma infer_rows_per_chunk_bounds `{Externals} (self : Layer) :
  1 ≤ num_rows (table self) →
  (1 ≤ BaseArrowLayer._default_rows_per_chunk self
     ≤ Z.of_nat (num_rows (table self)))%Z.
Proof.
  intros HR. unfold BaseArrowLayer._default_rows_per_chunk,
    ChunkPlanner.infer_rows_per_chunk.
  by apply plan_clamped.
Qed.

(** C5. A heatmap layer whose [_rows_per_chunk] was not assigned reads the
    table's full row count as its rows per chunk, whatever the table's byte
    size and whatever the byte budget of the inherited planner. *)
Theorem heatmap_rows_per_chunk `{Externals} (self : Layer) :
  layer_cls self = Heatmap →
  traits self !! "_rows_per_chunk" = None →
  default_rows_per_chunk self = Z.of_nat (num_rows (table self))
  ∧ rows_per_chunk self = Z.of_nat (num_rows (table self)).
Proof.
  intros Hcls Hunset. unfold rows_per_chunk, default_rows_per_chunk.
  by rewrite Hunset, Hcls.
Qed.

(* With that many rows per chunk the chunker yields the table in one
   piece. *)
Lemma split_full_row_count (t : Table) :
  wf_table t → 1 ≤ num_rows t →
  Chunker.split t (num_rows t) = [t].
Proof.
  intros Hwf HR. rewrite split_unrolled by done.
  rewrite (ceil_div_step (num_rows t) (num_rows t)) by lia.
  rewrite Nat.sub_diag, ceil_div_0 by lia. simpl. f_equal.
  unfold Chunker.slice. destruct t as [ext cols]; simpl columns in *.
  simpl extension_name. f_equal.
  rewrite <- (list_fmap_id cols) at 2.
  apply Forall_fmap_ext. eapply Forall_impl; [exact Hwf|].
  intros [name c] Hc. simpl in Hc |- *. f_equal.
  rewrite take_ge; [done|]. rewrite drop_0, Hc. done.
Qed.

(** ** The geometry type gate *)

Section encoder_facts.
Import GeometryEncoder.

Lemma forallb_false_elem {A} (f : A → bool) (l : list A) :
  forallb f l = false → ∃ x, x ∈ l ∧ f x = false.
Proof.
  induction l as [|x l IH]; simpl; [done|].
  destruct (f x) eqn:Hx; simpl.
  - intros (y & Hy & Hfy)%IH. exists y. split; [by right|done].
  - intros _. exists x. split; [by left|done].
Qed.

Lemma detect_geometry_type_Ok (geoms : list geometry) (ty : EXTENSION_NAME.t) :
  detect_geometry_type geoms = Ok ty ↔
    geoms ≠ [] ∧ ∀ g, g ∈ geoms → geom_type g = ty.
Proof.
  destruct geoms as [|g rest]; simpl.
  - split; [done|]. by intros [? _].
  - destruct (forallb _ rest) eqn:Hall.
    + rewrite forallb_forall in Hall. split.
      * intros [= <-]. split; [done|].
        intros g' [->|Hin]%elem_of_cons; [done|].
        apply list_elem_of_In, Hall in Hin.
        by apply bool_decide_eq_true_1 in Hin.
      * intros [_ Hty]. f_equal. apply Hty. by left.
    + split; [done|]. intros [_ Hty].
      assert (forallb (λ g', bool_decide (geom_type g' = geom_type g)) rest
              = true) as Hall'; [|congruence].
      apply forallb_forall. intros g' Hin%list_elem_of_In.
      apply bool_decide_eq_true_2.
      rewrite (Hty g') by (by right). symmetry. apply Hty. by left.
Qed.

Lemma detect_geometry_type_Err (geoms : list geometry) :
  detect_geometry_type geoms = Err UnsupportedGeometryError ↔
    geoms = [] ∨ ∃ g1 g2, g1 ∈ geoms ∧ g2 ∈ geoms ∧ geom_type g1 ≠ geom_type g2.
Proof.
  split.
  - destruct geoms as [|g rest]; simpl; [by left|].
    destruct (forallb _ rest) eqn:Hall; [done|]. intros _. right.
    apply forallb_false_elem in Hall as (g' & Hin & Hg').
    exists g', g. split_and!; [by right|by left|].
    by apply bool_decide_eq_false_1 in Hg'.
  - intros Hbad. destruct (detect_geometry_type geoms) as [ty|e] eqn:Hd.
    + apply detect_geometry_type_Ok in Hd as [Hne Hty].
      destruct Hbad as [->|(g1 & g2 & H1 & H2 & Hdiff)]; [done|].
      rewrite (Hty g1), (Hty g2) in Hdiff; done.
    + destruct geoms as [|g rest]; simpl in Hd; [by inversion Hd|].
      destruct (forallb _ rest); by inversion Hd.
Qed.
End encoder_facts.

(** C6. For every geometry sequence and allow-list: encoding fails with
    UnsupportedGeometryError when the sequence is empty, when it holds two
    geometries of different fundamental types, and when the detected type is
    not in the allow-list; it succeeds, with a column of the detected type
    over the same rows, when the detected type is in the allow-list. A type is
    detected exactly when the sequence is non-empty and of that one type. *)
Theorem geometry_type_gate (geoms : list geometry)
  (allowed : gset EXTENSION_NAME.t) :
  (geoms = [] →
     GeometryEncoder.encode geoms allowed = Err UnsupportedGeometryError)
  ∧ (∀ g1 g2, g1 ∈ geoms → g2 ∈ geoms →
       GeometryEncoder.fundamental (geom_type g1)
         ≠ GeometryEncoder.fundamental (geom_type g2) →
       GeometryEncoder.encode geoms allowed = Err UnsupportedGeometryError)
  ∧ (∀ ty, GeometryEncoder.detect_geometry_type geoms = Ok ty →
       (ty ∉ allowed →
          GeometryEncoder.encode geoms allowed = Err UnsupportedGeometryError)
       ∧ (ty ∈ allowed →
          GeometryEncoder.encode geoms allowed =
            Ok {| GeometryEncoder.column_type := ty;
                  GeometryEncoder.column_rows := geoms |}))
  ∧ (∀ ty, GeometryEncoder.detect_geometry_type geoms = Ok ty ↔
       geoms ≠ [] ∧ ∀ g, g ∈ geoms → geom_type g = ty).
Proof.
  split_and!.
  - by intros ->.
  - intros g1 g2 H1 H2 Hdiff. unfold GeometryEncoder.encode.
    rewrite (proj2 (detect_geometry_type_Err geoms)); [done|].
    right. exists g1, g2. split_and!; [done..|]. congruence.
  - intros ty Hty. unfold GeometryEncoder.encode, GeometryEncoder.gate.
    rewrite Hty; simpl. split; intros Hin.
    + by rewrite bool_decide_eq_false_2.
    + by rewrite bool_decide_eq_true_2.
  - apply detect_geometry_type_Ok.
Qed.

(* The same gate as a layer class applies it to the table it is given. *)
Lemma construct_gate `{Externals} (cls : layer_class) (t : Table)
  (kwargs : list (string * value)) :
  extension_name t ∉ allowed_geometry_types cls →
  unknown_names cls kwargs = [] →
  construct cls t kwargs = Err UnsupportedGeometryError.
Proof.
  intros Hty Hnames. unfold construct. rewrite Hnames.
  unfold PyarrowTableTrait.validate, GeometryEncoder.gate.
  by rewrite bool_decide_eq_false_2.
Qed.

(** ** Unknown keyword names *)

Lemma elem_of_unknown_names `{Externals} (cls : layer_class)
  (kwargs : list (string * value)) (name : string) :
  name ∈ unknown_names cls kwargs ↔
    name ∈ kwargs.*1 ∧ name ∉ trait_names cls.
Proof. unfold unknown_names. rewrite list_elem_of_filter. tauto. Qed.

Section message_facts.

Lemma starts_with_app (sub t : string) :
  starts_with sub (sub ++ t)%string = true.
Proof.
  induction sub as [|a sub IH]; simpl; [done|].
  by rewrite Ascii.eqb_refl, IH.
Qed.

Lemma starts_with_app_r (sub s t : string) :
  starts_with sub s = true → starts_with sub (s ++ t)%string = true.
Proof.
  revert s. induction sub as [|a sub IH]; intros s; [done|].
  destruct s as [|b s]; simpl; [done|].
  intros [Hab Hrest]%andb_true_iff. by rewrite Hab, IH.
Qed.

Lemma occurs_in_here (sub s : string) :
  starts_with sub s = true → occurs_in sub s = true.
Proof. intros Hsub. destruct s; simpl; by rewrite Hsub. Qed.

Lemma occurs_in_app_r (sub s t : string) :
  occurs_in sub s = true → occurs_in sub (s ++ t)%string = true.
Proof.
  induction s as [|b s IH]; intros Hsub.
  - cbn [occurs_in] in Hsub. rewrite orb_false_r in Hsub.
    apply occurs_in_here. by apply (starts_with_app_r sub EmptyString t).
  - change (String b s ++ t)%string with (String b (s ++ t)%string).
    cbn [occurs_in] in Hsub |- *.
    apply orb_true_iff in Hsub as [Hsub|Hrest]; apply orb_true_iff.
    + left. by apply (starts_with_app_r sub (String b s) t).
    + right. by apply IH.
Qed.

Lemma occurs_in_app_l (sub s t : string) :
  occurs_in sub t = true → occurs_in sub (s ++ t)%string = true.
Proof.
  intros Hsub. induction s as [|b s IH]; [done|].
  change (String b s ++ t)%string with (String b (s ++ t)%string).
  cbn [occurs_in]. rewrite IH. apply orb_true_r.
Qed.

(* Every name that was quoted can be read in the result. *)
Lemma occurs_in_quoted (names : list string) (n : string) :
  n ∈ names → occurs_in n (quoted names) = true.
Proof.
  induction names as [|m rest IH]; [by intros ?%elem_of_nil|].
  intros [->|Hin]%elem_of_cons; cbn [quoted].
  - apply occurs_in_app_l, occurs_in_here, starts_with_app.
  - by apply occurs_in_app_l, occurs_in_app_l, occurs_in_app_l, IH.
Qed.

Lemma occurs_in_unexpected_keyword_msg (names : list string) :
  occurs_in "unexpected keyword argument" (unexpected_keyword_msg names) = true
  ∧ ∀ n, n ∈ names → occurs_in n (unexpected_keyword_msg names) = true.
Proof.
  unfold unexpected_keyword_msg. split.
  - apply occurs_in_here, starts_with_app.
  - intros n Hin. by apply occurs_in_app_l, occurs_in_quoted.
Qed.
End message_facts.

(** C8. For every layer class and every keyword name given at construction
    that is not among the class's declared traits, construction fails with
    the unknown-field error, which is the builtin TypeError with a message
    that contains "unexpected keyword argument"; the message enumerates
    exactly the given names that are not declared, the offending name among
    them. *)
Theorem unknown_field_rejected `{Externals} (cls : layer_class) (t : Table)
  (kwargs : list (string * value)) (name : string) (v : value) :
  (name, v) ∈ kwargs → name ∉ trait_names cls →
  let msg := unexpected_keyword_msg (unknown_names cls kwargs) in
  construct cls t kwargs = Err (TypeError msg)
  ∧ occurs_in "unexpected keyword argument" msg = true
  ∧ name ∈ unknown_names cls kwargs
  ∧ (∀ n, n ∈ unknown_names cls kwargs ↔
       n ∈ kwargs.*1 ∧ n ∉ trait_names cls)
  ∧ (∀ n, n ∈ unknown_names cls kwargs → occurs_in n msg = true)
  ∧ msg = ("unexpected keyword argument"
           ++ quoted (unknown_names cls kwargs))%string.
Proof.
  intros Hin Hunknown msg. subst msg.
  assert (name ∈ unknown_names cls kwargs) as Hname.
  { apply elem_of_unknown_names. split; [|done].
    apply list_elem_of_fmap. by exists (name, v). }
  destruct (occurs_in_unexpected_keyword_msg (unknown_names cls kwargs))
    as [Hwords Hnames].
  split_and!; [|done|done|apply elem_of_unknown_names|done|done].
  unfold construct.
  destruct (unknown_names cls kwargs) as [|n ns]; [|done].
  by apply elem_of_nil in Hname.
Qed.

(** ** [from_geopandas] *)

Section from_geopandas_facts.
Context `{Externals}.

Lemma fresh_not_allocated (w : world) (r : loc) (g : GeoDataFrame) :
  heap w !! r = Some g → r ≠ fresh (dom (heap w)).
Proof.
  intros Hr ->. apply (is_fresh (dom (heap w))).
  apply elem_of_dom. by exists g.
Qed.

Lemma needs_reprojection_true (g : GeoDataFrame) :
  needs_reprojection g = true ↔
    ∃ c, gdf_crs g = Some c ∧ c ≠ EPSG_4326 ∧ c ≠ OGC_84.
Proof.
  unfold needs_reprojection. destruct (gdf_crs g) as [c|].
  - rewrite negb_true_iff, bool_decide_eq_false.
    rewrite !elem_of_cons, elem_of_nil. split.
    + intros Hc. exists c. split_and!; [done|intros ->; tauto..].
    + intros (c' & [= <-] & ? & ?). tauto.
  - split; [done|]. by intros (c & ? & _).
Qed.

Lemma from_geopandas_run (cls : layer_class) (gdf : loc) (ad : bool)
  (kwargs : list (string * value)) (w : world) (g : GeoDataFrame) :
  heap w !! gdf = Some g →
  from_geopandas cls gdf ad kwargs w =
    let '(g1, w1) := reprojection_step g w in
    let '(g2, w2) := downcast_step ad g1 w1 in
    (layer_of_frame cls kwargs g2, w2).
Proof.
  intros Hg. destruct w as [h log]; simpl in Hg.
  unfold from_geopandas, reprojection_step, downcast_step, layer_of_frame.
  cbv beta iota zeta delta [mbind Py_bind mret Py_ret read to_crs copy
    _auto_downcast geopandas_to_geoarrow alloc write warn lift heap emitted].
  rewrite Hg.
  destruct (needs_reprojection g) eqn:Hneeds.
  - apply needs_reprojection_true in Hneeds as (c & Hcrs & _).
    rewrite Hcrs. cbv beta iota zeta. rewrite Hg, Hcrs.
    destruct ad; repeat (cbv beta iota zeta; rewrite ?lookup_insert_eq);
      rewrite ?insert_insert_eq; by destruct (frame_to_geoarrow _).
  - assert (∀ w, (match gdf_crs g with
                  | Some _ => (g, w) | None => (g, w) end) = (g, w)) as ->
      by (intros; by destruct (gdf_crs g)).
    destruct ad; repeat (cbv beta iota zeta; rewrite ?Hg, ?lookup_insert_eq);
      rewrite ?insert_insert_eq; by destruct (frame_to_geoarrow _).
Qed.
End from_geopandas_facts.

(** C7. For every frame whose declared CRS is neither EPSG:4326 nor OGC:CRS84,
    [from_geopandas] issues exactly one warning, "GeoDataFrame being
    reprojected to EPSG:4326", and carries on: its outcome is the layer built
    from the frame reprojected to OGC:CRS84 (downcast first when asked), every
    coordinate transformed from the declared CRS before encoding. *)
Theorem from_geopandas_reprojects `{Externals} (cls : layer_class) (gdf : loc)
  (auto_downcast : bool) (kwargs : list (string * value)) (w : world)
  (g : GeoDataFrame) (c : CRS) :
  heap w !! gdf = Some g →
  gdf_crs g = Some c → c ≠ EPSG_4326 → c ≠ OGC_84 →
  let g' := reproject c OGC_84 g in
  let run := from_geopandas cls gdf auto_downcast kwargs w in
  run.1 = layer_of_frame cls kwargs
            (if auto_downcast then downcast_frame g' else g')
  ∧ emitted run.2 = (emitted w ++ [reprojection_warning])%list
  ∧ gdf_crs g' = Some OGC_84
  ∧ gdf_geometry g' = map_coords (transform c OGC_84) <$> gdf_geometry g.
Proof.
  intros Hg Hcrs H4326 H84 g' run. subst run.
  rewrite (from_geopandas_run _ _ _ _ _ g) by done.
  unfold reprojection_step, downcast_step. rewrite Hcrs.
  rewrite (proj2 (needs_reprojection_true g)) by eauto.
  by destruct auto_downcast.
Qed.

Section no_reprojection.
Context `{Externals}.

Lemma from_geopandas_as_supplied (cls : layer_class) (gdf : loc)
  (auto_downcast : bool) (kwargs : list (string * value)) (w : world)
  (g : GeoDataFrame) :
  heap w !! gdf = Some g → needs_reprojection g = false →
  let run := from_geopandas cls gdf auto_downcast kwargs w in
  run.1 = layer_of_frame cls kwargs
            (if auto_downcast then downcast_frame g else g)
  ∧ emitted run.2 = emitted w
  ∧ (auto_downcast = false → run.2 = w).
Proof.
  intros Hg Hneeds run. subst run.
  rewrite (from_geopandas_run _ _ _ _ _ g) by done.
  unfold reprojection_step, downcast_step. rewrite Hneeds.
  by destruct (gdf_crs g), auto_downcast.
Qed.

(* A frame that declares one of the two target systems is encoded as
   supplied. *)
Lemma from_geopandas_target_crs (cls : layer_class) (gdf : loc)
  (auto_downcast : bool) (kwargs : list (string * value)) (w : world)
  (g : GeoDataFrame) (c : CRS) :
  heap w !! gdf = Some g → gdf_crs g = Some c → c ∈ [EPSG_4326; OGC_84] →
  let run := from_geopandas cls gdf auto_downcast kwargs w in
  run.1 = layer_of_frame cls kwargs
            (if auto_downcast then downcast_frame g else g)
  ∧ emitted run.2 = emitted w
  ∧ (auto_downcast = false → run.2 = w).
Proof.
  intros Hg Hcrs Hc. apply from_geopandas_as_supplied; [done|].
  unfold needs_reprojection. rewrite Hcrs.
  by rewrite bool_decide_eq_true_2.
Qed.

(* The encoder does not look at the CRS a frame declares. *)
Lemma frame_to_geoarrow_ignores_crs (g : GeoDataFrame) (crs : option CRS) :
  frame_to_geoarrow
    {| gdf_crs := crs; gdf_geometry := gdf_geometry g;
       gdf_attributes := gdf_attributes g |}
  = frame_to_geoarrow g.
Proof. done. Qed.
End no_reprojection.

(** C10. For every frame whose CRS is undeclared, [from_geopandas] issues no
    warning and reprojects nothing: its outcome is the layer built from the
    frame as supplied (downcast first when asked); without downcasting no
    object is created or changed at all, and the outcome is the one obtained
    for a frame with the same rows that declares the target system. *)
Theorem from_geopandas_undeclared_crs `{Externals} (cls : layer_class)
  (gdf : loc) (auto_downcast : bool) (kwargs : list (string * value))
  (w : world) (g : GeoDataFrame) :
  heap w !! gdf = Some g → gdf_crs g = None →
  let run := from_geopandas cls gdf auto_downcast kwargs w in
  run.1 = layer_of_frame cls kwargs
            (if auto_downcast then downcast_frame g else g)
  ∧ emitted run.2 = emitted w
  ∧ (auto_downcast = false → run.2 = w)
  ∧ (∀ w2 g2, heap w2 !! gdf = Some g2 → gdf_crs g2 = Some OGC_84 →
       gdf_geometry g2 = gdf_geometry g →
       gdf_attributes g2 = gdf_attributes g →
       (from_geopandas cls gdf false kwargs w2).1
       = (from_geopandas cls gdf false kwargs w).1).
Proof.
  intros Hg Hcrs run.
  assert (needs_reprojection g = false) as Hneeds
    by (unfold needs_reprojection; by rewrite Hcrs).
  destruct (from_geopandas_as_supplied cls gdf auto_downcast kwargs w g Hg
              Hneeds) as (Hres & Hlog & Hw).
  split_and!; [done..|].
  intros w2 g2 Hg2 Hcrs2 Hgeom Hattr.
  destruct (from_geopandas_target_crs cls gdf false kwargs w2 g2 OGC_84 Hg2
              Hcrs2) as (-> & _).
  { apply list_elem_of_further, list_elem_of_here. }
  destruct (from_geopandas_as_supplied cls gdf false kwargs w g Hg Hneeds)
    as (-> & _).
  unfold layer_of_frame, frame_to_geoarrow. by rewrite Hgeom, Hattr.
Qed.

(** C9. For every call of [from_geopandas], the frame the caller passed in
    holds the same contents afterwards, and so does every other frame that
    existed before the call: reprojection and downcasting only ever write to
    frames created during the call. *)
Theorem from_geopandas_leaves_input `{Externals} (cls : layer_class)
  (gdf : loc) (auto_downcast : bool) (kwargs : list (string * value))
  (w : world) (g : GeoDataFrame) :
  heap w !! gdf = Some g →
  let w' := (from_geopandas cls gdf auto_downcast kwargs w).2 in
  heap w' !! gdf = Some g
  ∧ (∀ r g0, heap w !! r = Some g0 → heap w' !! r = Some g0).
Proof.
  intros Hg w'.
  assert (∀ r g0, heap w !! r = Some g0 → heap w' !! r = Some g0) as Hframe;
    [|by auto].
  intros r g0 Hr. subst w'.
  rewrite (from_geopandas_run _ _ _ _ _ g) by done.
  assert (∀ g1 w1, heap w1 !! r = Some g0 →
            heap (downcast_step auto_downcast g1 w1).2 !! r = Some g0) as Hdown.
  { intros g1 w1 Hr1. unfold downcast_step. destruct auto_downcast; [|done].
    simpl. rewrite lookup_insert_ne; [done|].
    intros Heq. by apply (fresh_not_allocated w1 r g0). }
  assert (heap (reprojection_step g w).2 !! r = Some g0) as Hrep.
  { unfold reprojection_step.
    destruct (gdf_crs g); [|done]. destruct (needs_reprojection g); [|done].
    simpl. rewrite lookup_insert_ne; [done|].
    intros Heq. by apply (fresh_not_allocated w r g0). }
  destruct (reprojection_step g w) as [g1 w1]; simpl in Hrep.
  specialize (Hdown g1 w1 Hrep).
  by destruct (downcast_step auto_downcast g1 w1).
Qed.

(** ** The properties at work on sample data *)

Lemma accessor_length_validation_witness :
  "get_radius" ∈ accessor_traits (layer_cls two_points_layer)
  ∧ set_trait two_points_layer "get_radius" (PaArray [SInt 1])
    = Err (TraitError accessor_length_msg)
  ∧ set_trait two_points_layer "get_radius" (PaArray [SInt 1; SInt 2; SInt 3])
    = Err (TraitError accessor_length_msg)
  ∧ is_ok (set_trait two_points_layer "get_radius" (PaArray [SInt 1; SInt 2]))
    = true
  ∧ is_ok (set_trait two_points_layer "get_radius" (Constant (SInt 7))) = true.
Proof.
  assert ("get_radius" ∈ accessor_traits (layer_cls two_points_layer))
    as Hin by (simpl; apply list_elem_of_here).
  split; [exact Hin|]. split_and!.
  - apply (accessor_length_validation two_points_layer "get_radius"
             (PaArray [SInt 1]) Hin); [reflexivity|vm_compute; lia].
  - apply (accessor_length_validation two_points_layer "get_radius"
             (PaArray [SInt 1; SInt 2; SInt 3]) Hin); [reflexivity|vm_compute; lia].
  - destruct (accessor_length_validation two_points_layer "get_radius"
                (PaArray [SInt 1; SInt 2]) Hin) as (_ & Hok & _).
    rewrite Hok; reflexivity.
  - destruct (accessor_length_validation two_points_layer "get_radius"
                (Constant (SInt 7)) Hin) as (_ & _ & Hok).
    rewrite Hok; reflexivity.
Defined.

Lemma planner_bounds_witness :
  1 ≤ num_rows ten_thousand_rows
  ∧ (0 < 1000000)%Z
  ∧ (1 ≤ @ChunkPlanner.plan sample_env ten_thousand_rows 1000000
       ≤ Z.of_nat (num_rows ten_thousand_rows))%Z.
Proof.
  assert (1 ≤ num_rows ten_thousand_rows) as HR.
  { apply Nat.leb_le. vm_compute. reflexivity. }
  split; [exact HR|]. split; [lia|].
  apply (@planner_bounds sample_env ten_thousand_rows 1000000 HR). lia.
Defined.

(* 10,000 rows of 40 bytes against a budget of 1,000,000 bytes: 25,000 rows
   would fit, the plan is the row count. *)
Example plan_ten_thousand_rows :
  @ChunkPlanner.unclamped_rows sample_env ten_thousand_rows 1000000 = 25000%Z
  ∧ @ChunkPlanner.plan sample_env ten_thousand_rows 1000000 = 10000%Z
  ∧ length (Chunker.split ten_thousand_rows (100 * 100)) = 1.
Proof. vm_compute. done. Qed.

Lemma wf_ten_rows : wf_table ten_rows.
Proof. unfold wf_table. repeat constructor. Qed.

Lemma split_round_trip_witness :
  wf_table ten_rows ∧ 1 ≤ 3
  ∧ (∀ i, Chunker.concat_column i (Chunker.split ten_rows 3)
          = Chunker.column i ten_rows)
  ∧ (∀ i k, k < 3 →
       Chunker.column i (Chunker.slice ten_rows 6 3) !! k
       = Chunker.column i ten_rows !! (2 * 3 + k)).
Proof.
  split; [exact wf_ten_rows|]. split; [lia|].
  destruct (split_round_trip ten_rows 3 wf_ten_rows) as [Hcat Hrows]; [lia|].
  split; [exact Hcat|].
  destruct (Hrows 2 (Chunker.slice ten_rows 6 3)) as (_ & _ & Hk);
    [reflexivity|exact Hk].
Defined.

Lemma split_chunk_sizes_witness :
  1 ≤ num_rows ten_rows ∧ 1 ≤ 3
  ∧ let chunks := Chunker.split ten_rows 3 in
    Z.of_nat (length chunks) = Chunker.ceil_ratio (num_rows ten_rows) 3
    ∧ (∀ j chunk, chunks !! j = Some chunk → S j < length chunks →
         num_rows chunk = 3)
    ∧ (∃ chunk, last chunks = Some chunk
         ∧ num_rows chunk =
             if (num_rows ten_rows mod 3 =? 0) then 3
             else num_rows ten_rows mod 3)
    ∧ (wf_table ten_rows → Forall wf_table chunks).
Proof.
  split; [vm_compute; lia|]. split; [lia|].
  apply (split_chunk_sizes ten_rows 3); [vm_compute; lia|lia].
Defined.

(* Ten rows in chunks of three: four chunks, of 3, 3, 3 and 1 rows. *)
Example split_ten_rows_by_three :
  num_rows <$> Chunker.split ten_rows 3 = [3; 3; 3; 1]
  ∧ Chunker.ceil_ratio 10 3 = 4%Z.
Proof. vm_compute. done. Qed.

Lemma heatmap_rows_per_chunk_witness :
  layer_cls two_points_heatmap = Heatmap
  ∧ traits two_points_heatmap !! "_rows_per_chunk" = None
  ∧ @default_rows_per_chunk sample_env two_points_heatmap = 2%Z
  ∧ @rows_per_chunk sample_env two_points_heatmap = 2%Z.
Proof.
  split; [reflexivity|]. split; [reflexivity|].
  apply (@heatmap_rows_per_chunk sample_env two_points_heatmap); reflexivity.
Defined.

Lemma geometry_type_gate_witness :
  GeometryEncoder.encode (gdf_geometry two_points) {[ EXTENSION_NAME.POLYGON ]}
    = Err UnsupportedGeometryError
  ∧ GeometryEncoder.encode (gdf_geometry two_points) {[ EXTENSION_NAME.POINT ]}
    = Ok {| GeometryEncoder.column_type := EXTENSION_NAME.POINT;
            GeometryEncoder.column_rows := gdf_geometry two_points |}
  ∧ GeometryEncoder.encode [] {[ EXTENSION_NAME.POINT ]}
    = Err UnsupportedGeometryError
  ∧ GeometryEncoder.encode [Point (0, 0)%Q; LineString []]
      {[ EXTENSION_NAME.POINT; EXTENSION_NAME.LINESTRING ]}
    = Err UnsupportedGeometryError.
Proof.
  split_and!.
  - destruct (geometry_type_gate (gdf_geometry two_points)
                {[ EXTENSION_NAME.POLYGON ]}) as (_ & _ & Hgate & _).
    destruct (Hgate EXTENSION_NAME.POINT) as [Hout _]; [reflexivity|].
    apply Hout. intros Hin%elem_of_singleton. discriminate.
  - destruct (geometry_type_gate (gdf_geometry two_points)
                {[ EXTENSION_NAME.POINT ]}) as (_ & _ & Hgate & _).
    destruct (Hgate EXTENSION_NAME.POINT) as [_ Hin]; [reflexivity|].
    apply Hin. apply elem_of_singleton. reflexivity.
  - apply (geometry_type_gate [] {[ EXTENSION_NAME.POINT ]}). reflexivity.
  - destruct (geometry_type_gate [Point (0, 0)%Q; LineString []]
                {[ EXTENSION_NAME.POINT; EXTENSION_NAME.LINESTRING ]})
      as (_ & Hmixed & _).
    apply (Hmixed (Point (0, 0)%Q) (LineString [])).
    + apply list_elem_of_here.
    + apply list_elem_of_further, list_elem_of_here.
    + discriminate.
Defined.

Lemma from_geopandas_reprojects_witness :
  heap (sample_world two_points_mercator) !! 1%positive
    = Some two_points_mercator
  ∧ gdf_crs two_points_mercator = Some "EPSG:3857"
  ∧ "EPSG:3857" ≠ @EPSG_4326 sample_env
  ∧ "EPSG:3857" ≠ @OGC_84 sample_env
  ∧ let g' := @reproject sample_env "EPSG:3857" "OGC:CRS84"
                two_points_mercator in
    let run := @from_geopandas sample_env Scatterplot 1%positive true
                 (radius [1; 2]%Z) (sample_world two_points_mercator) in
    run.1 = @layer_of_frame sample_env Scatterplot (radius [1; 2]%Z) g'
    ∧ emitted run.2 = [reprojection_warning]
    ∧ gdf_crs g' = Some "OGC:CRS84"
    ∧ gdf_geometry g' = [Point (3, 1)%Q; Point (4, 2)%Q].
Proof.
  split; [reflexivity|]. split; [reflexivity|].
  split; [discriminate|]. split; [discriminate|].
  apply (@from_geopandas_reprojects sample_env Scatterplot 1%positive true
           (radius [1; 2]%Z) (sample_world two_points_mercator)
           two_points_mercator "EPSG:3857");
    [reflexivity|reflexivity|discriminate|discriminate].
Defined.

Lemma unknown_field_rejected_witness :
  ("get_unicorn", Constant (SInt 1)) ∈ [("get_unicorn", Constant (SInt 1))]
  ∧ ("get_unicorn" ∉ @trait_names sample_env Scatterplot)
  ∧ (@construct sample_env Scatterplot two_points_table
        [("get_unicorn", Constant (SInt 1))])
    = Err (TypeError "unexpected keyword argument 'get_unicorn'")
  ∧ occurs_in "get_unicorn" "unexpected keyword argument 'get_unicorn'" = true.
Proof.
  assert ("get_unicorn" ∉ @trait_names sample_env Scatterplot) as Hout.
  { apply (bool_decide_unpack _). vm_compute. exact I. }
  split; [apply list_elem_of_here|]. split; [exact Hout|].
  destruct (@unknown_field_rejected sample_env Scatterplot two_points_table
              [("get_unicorn", Constant (SInt 1))] "get_unicorn"
              (Constant (SInt 1))) as (Herr & _ & Hname & _ & Hlisted & _);
    [apply list_elem_of_here|exact Hout|].
  split.
  - rewrite Herr. reflexivity.
  - apply (Hlisted "get_unicorn" Hname).
Defined.

Lemma from_geopandas_leaves_input_witness :
  heap (sample_world two_points_mercator) !! 1%positive
    = Some two_points_mercator
  ∧ let w' := (@from_geopandas sample_env Scatterplot 1%positive true
                 (radius [1; 2]%Z) (sample_world two_points_mercator)).2 in
    heap w' !! 1%positive = Some two_points_mercator
    ∧ (∀ r g0, heap (sample_world two_points_mercator) !! r = Some g0 →
         heap w' !! r = Some g0).
Proof.
  split; [reflexivity|].
  apply (@from_geopandas_leaves_input sample_env Scatterplot 1%positive true
           (radius [1; 2]%Z) (sample_world two_points_mercator)
           two_points_mercator).
  reflexivity.
Defined.

Lemma from_geopandas_undeclared_crs_witness :
  heap (sample_world two_points) !! 1%positive = Some two_points
  ∧ gdf_crs two_points = None
  ∧ let run := @from_geopandas sample_env Scatterplot 1%positive false
                 (radius [1; 2]%Z) (sample_world two_points) in
    run.1 = @layer_of_frame sample_env Scatterplot (radius [1; 2]%Z) two_points
    ∧ emitted run.2 = emitted (sample_world two_points)
    ∧ run.2 = sample_world two_points.
Proof.
  split; [reflexivity|]. split; [reflexivity|].
  destruct (@from_geopandas_undeclared_crs sample_env Scatterplot 1%positive
              false (radius [1; 2]%Z) (sample_world two_points) two_points)
    as (Hres & Hlog & Hw & _); [reflexivity|reflexivity|].
  split; [exact Hres|]. split; [exact Hlog|]. apply Hw. reflexivity.
Defined.

(** ** The repository's tests *)

(* test_accessor_length_validation *)
Example test_accessor_length_validation :
  let run kwargs := (@from_geopandas sample_env Scatterplot 1%positive true
                       kwargs (sample_world two_points)).1 in
  run (radius [1]%Z) = Err (TraitError accessor_length_msg)
  ∧ run (radius [1; 2; 3]%Z) = Err (TraitError accessor_length_msg)
  ∧ is_ok (run (radius [1; 2]%Z)) = true.
Proof. vm_compute. done. Qed.

(* test_layer_fails_with_unexpected_argument: a TypeError whose message
   matches "unexpected keyword argument". *)
Example test_layer_fails_with_unexpected_argument :
  ∃ msg,
    (@from_geopandas sample_env Scatterplot 1%positive true
       [("unknown_keyword", Constant (SStr "foo"))] (sample_world two_points)).1
    = Err (TypeError msg)
    ∧ occurs_in "unexpected keyword argument" msg = true
    ∧ occurs_in "unknown_keyword" msg = true.
Proof.
  exists "unexpected keyword argument 'unknown_keyword'".
  by vm_compute.
Qed.

(* Two unknown names among known ones: both are listed, in the order given,
   and nothing else is. *)
Example two_unknown_keywords :
  @construct sample_env Scatterplot two_points_table
    [("get_unicorn", Constant (SInt 1)); ("get_radius", Constant (SInt 2));
     ("get_dragon", Constant (SInt 3))]
  = Err (TypeError
           "unexpected keyword argument 'get_unicorn' 'get_dragon'").
Proof. by vm_compute. Qed.

(* Points are refused by a polygon layer and by nothing else about them;
   multi-points are refused by the heatmap layer. *)
Example layer_allow_lists :
  (@from_geopandas sample_env SolidPolygon 1%positive true []
     (sample_world two_points)).1 = Err UnsupportedGeometryError
  ∧ is_ok (@from_geopandas sample_env Heatmap 1%positive true []
             (sample_world two_points)).1 = true
  ∧ (EXTENSION_NAME.MULTIPOINT ∉ allowed_geometry_types Heatmap)
  ∧ EXTENSION_NAME.MULTIPOINT ∈ allowed_geometry_types Scatterplot.
Proof.
  split_and!; [by vm_compute..| |].
  - unfold allowed_geometry_types, HeatmapLayer.allowed_geometry_types.
    intros Hin%elem_of_singleton. discriminate.
  - unfold allowed_geometry_types, ScatterplotLayer.allowed_geometry_types.
    apply elem_of_union_r, elem_of_singleton. reflexivity.
Qed.

(** * Further properties of the layer code *)

(** ** Accessor assignment, one keyword and many *)

Section assignment_facts.

Lemma cross_validate_cases (self : Layer) (name : string) (v : value) :
  cross_validate self name v =
    if length_fits (layer_cls self) (num_rows (table self)) (name, v)
    then Ok v else Err (TraitError accessor_length_msg).
Proof.
  unfold cross_validate, length_fits; simpl.
  rewrite _validate_accessor_length_unfold.
  by destruct (bool_decide _), (is_arrow_array v), (value_len v =? _).
Qed.

Lemma set_trait_cases (self : Layer) (name : string) (v : value) :
  set_trait self name v =
    if length_fits (layer_cls self) (num_rows (table self)) (name, v)
    then Ok {| layer_cls := layer_cls self; table := table self;
               traits := <[name := v]> (traits self) |}
    else Err (TraitError accessor_length_msg).
Proof.
  unfold set_trait. rewrite cross_validate_cases.
  by destruct (length_fits _ _ _).
Qed.

(* The constructor's loop over the keywords, in closed form. *)
Lemma set_traits_closed_form (self : Layer) (kwargs : list (string * value)) :
  set_traits self kwargs =
    if forallb (length_fits (layer_cls self) (num_rows (table self))) kwargs
    then Ok {| layer_cls := layer_cls self; table := table self;
               traits := store_all (traits self) kwargs |}
    else Err (TraitError accessor_length_msg).
Proof.
  revert self. induction kwargs as [|[name v] rest IH]; intros self.
  - by destruct self.
  - cbn [set_traits forallb]. rewrite set_trait_cases.
    destruct (length_fits _ _ (name, v)); [|done].
    cbn [mbind result_bind andb]. by rewrite IH.
Qed.

Lemma length_fits_true (cls : layer_class) (n_rows : nat)
  (name : string) (v : value) :
  length_fits cls n_rows (name, v) = true ↔
    (name ∈ validated_accessors cls → is_arrow_array v = true →
     value_len v = n_rows).
Proof.
  unfold length_fits; simpl.
  destruct (bool_decide_reflect (name ∈ validated_accessors cls)) as [Hin|Hout],
    (is_arrow_array v), (Nat.eqb_spec (value_len v) n_rows); simpl;
    split; try done; intros Hfit; try (by exfalso; auto).
Qed.

Lemma forallb_Permutation {A} (f : A → bool) (l l' : list A) :
  l ≡ₚ l' → forallb f l = forallb f l'.
Proof.
  induction 1 as [|x l l' _ IH|x y l|l l' l'' _ IH1 _ IH2]; simpl.
  - done.
  - by rewrite IH.
  - by destruct (f x), (f y).
  - by rewrite IH1.
Qed.

Lemma store_all_list_to_map (m : gmap string value)
  (kwargs : list (string * value)) :
  NoDup kwargs.*1 → store_all m kwargs = list_to_map kwargs ∪ m.
Proof.
  unfold store_all. revert m.
  induction kwargs as [|[name v] rest IH]; intros m Hnodup.
  - symmetry. apply (left_id_L ∅ (∪)).
  - rewrite fmap_cons in Hnodup.
    apply NoDup_cons in Hnodup as [Hfresh Hnodup].
    cbn [foldl fst snd]. rewrite IH by done.
    rewrite list_to_map_cons, <- insert_union_l. symmetry.
    apply insert_union_r. by apply not_elem_of_list_to_map_1.
Qed.
End assignment_facts.

(** X2. The keywords of a constructor call are accepted together exactly
    when each of them would be accepted alone: every Arrow array given under
    a validated accessor name has the table's row count. The only error the
    loop can end in is the TraitError "accessor must have same length as
    table", and on success the class and the table are the ones it started
    with. *)
Theorem set_traits_accepts (self : Layer) (kwargs : list (string * value)) :
  (is_ok (set_traits self kwargs) = true ↔
     ∀ name v, (name, v) ∈ kwargs →
       name ∈ validated_accessors (layer_cls self) →
       is_arrow_array v = true →
       value_len v = num_rows (table self))
  ∧ (∀ e, set_traits self kwargs = Err e → e = TraitError accessor_length_msg)
  ∧ (∀ self', set_traits self kwargs = Ok self' →
       layer_cls self' = layer_cls self ∧ table self' = table self).
Proof.
  rewrite set_traits_closed_form.
  destruct (forallb _ kwargs) eqn:Hall; simpl.
  - split_and!; [|done|by intros self' [= <-]].
    split; [|done]. intros _ name v Hin.
    rewrite forallb_forall in Hall.
    apply length_fits_true, Hall. by apply list_elem_of_In.
  - split_and!; [|by intros e [= <-]|done].
    split; [done|]. intros Hfit.
    assert (forallb (length_fits (layer_cls self) (num_rows (table self)))
              kwargs = true) as Hall'; [|congruence].
    apply forallb_forall. intros [name v] Hin%list_elem_of_In.
    apply length_fits_true. by apply Hfit.
Qed.

Lemma set_traits_accepts_witness :
  is_ok (set_traits two_points_layer radius_and_width) = true
  ∧ is_ok (set_traits two_points_layer
             (("get_fill_color", PaArray [SList [255; 0; 0]%Z])
                :: radius_and_width)) = false.
Proof.
  split.
  - destruct (set_traits_accepts two_points_layer radius_and_width)
      as [[_ Hback] _].
    apply Hback. intros name v Hin _ Harr.
    apply elem_of_cons in Hin as [[= -> ->]|Hin]; [reflexivity|].
    apply elem_of_cons in Hin as [[= -> ->]|Hin]; [discriminate|].
    by apply elem_of_nil in Hin.
  - destruct (set_traits two_points_layer
                (("get_fill_color", PaArray [SList [255; 0; 0]%Z])
                   :: radius_and_width)) as [l|e] eqn:Hrun; [|reflexivity].
    exfalso.
    assert (is_ok (set_traits two_points_layer
                     (("get_fill_color", PaArray [SList [255; 0; 0]%Z])
                        :: radius_and_width)) = true) as Hok
      by (by rewrite Hrun).
    destruct (set_traits_accepts two_points_layer
                (("get_fill_color", PaArray [SList [255; 0; 0]%Z])
                   :: radius_and_width)) as [[Hfits _] _].
    specialize (Hfits Hok "get_fill_color" (PaArray [SList [255; 0; 0]%Z])).
    discriminate Hfits.
    + apply list_elem_of_here.
    + apply list_elem_of_further, list_elem_of_here.
    + reflexivity.
Defined.

(** X3. The order in which keywords are given does not matter: two keyword
    lists with the same distinct names and values, in any order, lead to the
    same layer or to the same error. *)
Theorem set_traits_keyword_order (self : Layer)
  (kwargs kwargs' : list (string * value)) :
  NoDup kwargs.*1 → kwargs ≡ₚ kwargs' →
  set_traits self kwargs = set_traits self kwargs'.
Proof.
  intros Hnodup Hperm. rewrite !set_traits_closed_form.
  rewrite (forallb_Permutation _ kwargs kwargs') by done.
  destruct (forallb _ kwargs'); [|done]. do 2 f_equal.
  assert (NoDup kwargs'.*1) as Hnodup' by (by rewrite <- Hperm).
  rewrite !store_all_list_to_map by done.
  by rewrite (list_to_map_proper kwargs kwargs').
Qed.

Lemma set_traits_keyword_order_witness :
  NoDup radius_and_width.*1
  ∧ radius_and_width ≡ₚ width_and_radius
  ∧ set_traits two_points_layer radius_and_width
    = set_traits two_points_layer width_and_radius.
Proof.
  assert (NoDup radius_and_width.*1) as Hnodup.
  { apply (bool_decide_unpack _). vm_compute. exact I. }
  assert (radius_and_width ≡ₚ width_and_radius) as Hperm
    by apply perm_swap.
  split; [exact Hnodup|]. split; [exact Hperm|].
  apply (set_traits_keyword_order two_points_layer _ _ Hnodup Hperm).
Defined.

(** ** [from_geopandas]: warnings, new frames, failing calls *)

Section from_geopandas_effects.
Context `{Externals}.

Lemma reprojection_step_skip (g : GeoDataFrame) (w : world) :
  needs_reprojection g = false → reprojection_step g w = (g, w).
Proof.
  intros Hskip. unfold reprojection_step. rewrite Hskip.
  by destruct (gdf_crs g).
Qed.

Lemma reprojection_step_go (g : GeoDataFrame) (w : world) (c : CRS) :
  gdf_crs g = Some c → needs_reprojection g = true →
  reprojection_step g w =
    (reproject c OGC_84 g,
     {| heap := <[fresh (dom (heap w)) := reproject c OGC_84 g]> (heap w);
        emitted := (emitted w ++ [reprojection_warning])%list |}).
Proof.
  intros Hcrs Hgo. unfold reprojection_step. by rewrite Hcrs, Hgo.
Qed.

Lemma fresh_lookup_None (h : gmap loc GeoDataFrame) :
  h !! fresh (dom h) = None.
Proof. apply not_elem_of_dom, is_fresh. Qed.

(* A reference to no object: the first attribute access fails. *)
Lemma from_geopandas_dangling (cls : layer_class) (gdf : loc) (ad : bool)
  (kwargs : list (string * value)) (w : world) :
  heap w !! gdf = None →
  from_geopandas cls gdf ad kwargs w = (Err InvalidReference, w).
Proof.
  intros Hnone. unfold from_geopandas.
  cbv beta iota zeta delta [mbind Py_bind read]. by rewrite Hnone.
Qed.

(* The world a call leaves behind, whatever its outcome. *)
Lemma from_geopandas_world (cls : layer_class) (gdf : loc) (ad : bool)
  (kwargs : list (string * value)) (w : world) (g : GeoDataFrame) :
  heap w !! gdf = Some g →
  (from_geopandas cls gdf ad kwargs w).2 =
    (downcast_step ad (reprojection_step g w).1 (reprojection_step g w).2).2.
Proof.
  intros Hg. rewrite (from_geopandas_run _ _ _ _ _ g) by done.
  destruct (reprojection_step g w) as [g1 w1]; simpl.
  by destruct (downcast_step ad g1 w1).
Qed.

Lemma from_geopandas_outcome (cls : layer_class) (gdf : loc) (ad : bool)
  (kwargs : list (string * value)) (w : world) (g : GeoDataFrame) :
  heap w !! gdf = Some g →
  (from_geopandas cls gdf ad kwargs w).1 =
    layer_of_frame cls kwargs
      (downcast_step ad (reprojection_step g w).1 (reprojection_step g w).2).1.
Proof.
  intros Hg. rewrite (from_geopandas_run _ _ _ _ _ g) by done.
  destruct (reprojection_step g w) as [g1 w1]; simpl.
  by destruct (downcast_step ad g1 w1).
Qed.

Lemma downcast_step_emitted (ad : bool) (g : GeoDataFrame) (w : world) :
  emitted (downcast_step ad g w).2 = emitted w.
Proof. unfold downcast_step. by destruct ad. Qed.

Lemma downcast_step_frame (ad : bool) (g : GeoDataFrame) (w : world) :
  (downcast_step ad g w).1 = if ad then downcast_frame g else g.
Proof. unfold downcast_step. by destruct ad. Qed.
End from_geopandas_effects.

(** X4. A call of [from_geopandas] adds at most one warning to those already
    issued, and it adds one exactly when the frame declares a CRS that is
    neither EPSG_4326 nor OGC_84; in particular never for a frame without a
    CRS or one that declares either of the two. *)
Theorem from_geopandas_warns_iff `{Externals} (cls : layer_class) (gdf : loc)
  (auto_downcast : bool) (kwargs : list (string * value)) (w : world)
  (g : GeoDataFrame) :
  heap w !! gdf = Some g →
  let log' := emitted (from_geopandas cls gdf auto_downcast kwargs w).2 in
  (log' = (emitted w ++ [reprojection_warning])%list ∨ log' = emitted w)
  ∧ (log' = (emitted w ++ [reprojection_warning])%list ↔
       ∃ c, gdf_crs g = Some c ∧ c ≠ EPSG_4326 ∧ c ≠ OGC_84).
Proof.
  intros Hg log'. subst log'.
  rewrite (from_geopandas_world _ _ _ _ _ g) by done.
  rewrite downcast_step_emitted.
  destruct (needs_reprojection g) eqn:Hneeds.
  - pose proof Hneeds as (c & Hcrs & Hc)%needs_reprojection_true.
    rewrite (reprojection_step_go g w c) by done. simpl.
    split; [by left|]. split; [|done]. intros _. by exists c.
  - rewrite reprojection_step_skip by done. simpl.
    split; [by right|]. split.
    + intros Hlog. apply (f_equal length) in Hlog.
      rewrite length_app in Hlog. simpl in Hlog. lia.
    + intros Hc%needs_reprojection_true. congruence.
Qed.

Lemma from_geopandas_warns_iff_witness :
  emitted (@from_geopandas sample_env Scatterplot 1%positive true []
             (sample_world two_points_mercator)).2 = [reprojection_warning]
  ∧ emitted (@from_geopandas sample_env Scatterplot 1%positive true []
               (sample_world two_points_wgs84)).2 = [].
Proof.
  split.
  - destruct (@from_geopandas_warns_iff sample_env Scatterplot 1%positive true
                [] (sample_world two_points_mercator) two_points_mercator)
      as [_ [_ Hwarn]]; [reflexivity|].
    apply Hwarn. exists "EPSG:3857".
    split; [reflexivity|]. split; discriminate.
  - destruct (@from_geopandas_warns_iff sample_env Scatterplot 1%positive true
                [] (sample_world two_points_wgs84) two_points_wgs84)
      as [[Hlog|Hlog] [Hwarn _]]; [reflexivity| |exact Hlog].
    destruct (Hwarn Hlog) as (c & Hcrs & Hc & _).
    injection Hcrs as <-. exfalso. apply Hc. reflexivity.
Defined.

(** X5. A frame that declares EPSG_4326 or OGC_84 is never reprojected: the
    layer is built from the frame as supplied (downcast first when asked), no
    warning is issued, and without downcasting nothing at all is created or
    changed. *)
Theorem from_geopandas_wgs84_as_supplied `{Externals} (cls : layer_class)
  (gdf : loc) (auto_downcast : bool) (kwargs : list (string * value))
  (w : world) (g : GeoDataFrame) (c : CRS) :
  heap w !! gdf = Some g → gdf_crs g = Some c →
  c = EPSG_4326 ∨ c = OGC_84 →
  let run := from_geopandas cls gdf auto_downcast kwargs w in
  run.1 = layer_of_frame cls kwargs
            (if auto_downcast then downcast_frame g else g)
  ∧ emitted run.2 = emitted w
  ∧ (auto_downcast = false → run.2 = w).
Proof.
  intros Hg Hcrs Hc. apply from_geopandas_as_supplied; [done|].
  unfold needs_reprojection. rewrite Hcrs.
  rewrite bool_decide_eq_true_2; [done|].
  destruct Hc as [->| ->];
    [apply list_elem_of_here|apply list_elem_of_further, list_elem_of_here].
Qed.

Lemma from_geopandas_wgs84_as_supplied_witness :
  let run := @from_geopandas sample_env Scatterplot 1%positive false
               (radius [1; 2]%Z) (sample_world two_points_wgs84) in
  run.1 = @layer_of_frame sample_env Scatterplot (radius [1; 2]%Z)
            two_points_wgs84
  ∧ emitted run.2 = []
  ∧ run.2 = sample_world two_points_wgs84.
Proof.
  destruct (@from_geopandas_wgs84_as_supplied sample_env Scatterplot 1%positive
              false (radius [1; 2]%Z) (sample_world two_points_wgs84)
              two_points_wgs84 "EPSG:4326")
    as (Hres & Hlog & Hw); [reflexivity|reflexivity|by left|].
  split; [exact Hres|]. split; [exact Hlog|]. apply Hw. reflexivity.
Defined.

(** X6. Reprojecting a frame to OGC_84 by hand before the call changes
    nothing but the warning: [from_geopandas] on the frame that [to_crs]
    would produce has the same outcome as on the original frame, and issues
    no warning. *)
Theorem from_geopandas_after_to_crs `{Externals} (cls : layer_class)
  (gdf gdf' : loc) (auto_downcast : bool) (kwargs : list (string * value))
  (w w' : world) (g : GeoDataFrame) (c : CRS) :
  heap w !! gdf = Some g →
  gdf_crs g = Some c → c ≠ EPSG_4326 → c ≠ OGC_84 →
  heap w' !! gdf' = Some (reproject c OGC_84 g) →
  (from_geopandas cls gdf' auto_downcast kwargs w').1
  = (from_geopandas cls gdf auto_downcast kwargs w).1
  ∧ emitted (from_geopandas cls gdf' auto_downcast kwargs w').2 = emitted w'.
Proof.
  intros Hg Hcrs H4326 H84 Hg'.
  assert (needs_reprojection g = true) as Hgo
    by (apply needs_reprojection_true; eauto).
  assert (needs_reprojection (reproject c OGC_84 g) = false) as Hskip.
  { unfold needs_reprojection; simpl. rewrite bool_decide_eq_true_2; [done|].
    apply list_elem_of_further, list_elem_of_here. }
  destruct (from_geopandas_as_supplied cls gdf' auto_downcast kwargs w'
              (reproject c OGC_84 g) Hg' Hskip) as (-> & -> & _).
  split; [|done].
  rewrite (from_geopandas_outcome _ _ _ _ _ g) by done.
  rewrite (reprojection_step_go g w c) by done. simpl.
  by rewrite downcast_step_frame.
Qed.

Lemma from_geopandas_after_to_crs_witness :
  (@from_geopandas sample_env Scatterplot 1%positive true (radius [1; 2]%Z)
     (sample_world (@reproject sample_env "EPSG:3857" "OGC:CRS84"
                      two_points_mercator))).1
  = (@from_geopandas sample_env Scatterplot 1%positive true (radius [1; 2]%Z)
       (sample_world two_points_mercator)).1.
Proof.
  apply (@from_geopandas_after_to_crs sample_env Scatterplot 1%positive
           1%positive true (radius [1; 2]%Z)
           (sample_world two_points_mercator)
           (sample_world (@reproject sample_env "EPSG:3857" "OGC:CRS84"
                            two_points_mercator))
           two_points_mercator "EPSG:3857");
    [reflexivity|reflexivity|discriminate|discriminate|reflexivity].
Defined.

(** X7. A call creates one new frame when it reprojects and one more when it
    downcasts, and nothing else: the store grows by exactly that many frames
    and every frame it held before is still there. *)
Theorem from_geopandas_new_frames `{Externals} (cls : layer_class) (gdf : loc)
  (auto_downcast : bool) (kwargs : list (string * value)) (w : world)
  (g : GeoDataFrame) :
  heap w !! gdf = Some g →
  let w' := (from_geopandas cls gdf auto_downcast kwargs w).2 in
  size (heap w') =
    size (heap w) + (if needs_reprojection g then 1 else 0)
                  + (if auto_downcast then 1 else 0)
  ∧ heap w ⊆ heap w'.
Proof.
  intros Hg w'. subst w'.
  rewrite (from_geopandas_world _ _ _ _ _ g) by done.
  assert (∀ g1 w1,
            size (heap (downcast_step auto_downcast g1 w1).2) =
              size (heap w1) + (if auto_downcast then 1 else 0)
            ∧ heap w1 ⊆ heap (downcast_step auto_downcast g1 w1).2) as Hdown.
  { intros g1 w1. unfold downcast_step. destruct auto_downcast; simpl.
    - rewrite map_size_insert_None by apply fresh_lookup_None.
      split; [lia|]. apply insert_subseteq, fresh_lookup_None.
    - split; [lia|done]. }
  destruct (needs_reprojection g) eqn:Hneeds.
  - pose proof Hneeds as (c & Hcrs & _)%needs_reprojection_true.
    rewrite (reprojection_step_go g w c) by done. simpl.
    destruct (Hdown (reproject c OGC_84 g)
                {| heap := <[fresh (dom (heap w)) := reproject c OGC_84 g]>
                             (heap w);
                   emitted := (emitted w ++ [reprojection_warning])%list |})
      as [Hsize Hsub].
    simpl in Hsize, Hsub.
    rewrite map_size_insert_None in Hsize by apply fresh_lookup_None.
    split; [lia|].
    etrans; [|exact Hsub]. apply insert_subseteq, fresh_lookup_None.
  - rewrite reprojection_step_skip by done. simpl.
    destruct (Hdown g w) as [Hsize Hsub]. split; [lia|done].
Qed.

Lemma from_geopandas_new_frames_witness :
  size (heap (@from_geopandas sample_env Scatterplot 1%positive true []
                (sample_world two_points_mercator)).2) = 3
  ∧ size (heap (@from_geopandas sample_env Scatterplot 1%positive false []
                  (sample_world two_points)).2) = 1.
Proof.
  split.
  - destruct (@from_geopandas_new_frames sample_env Scatterplot 1%positive true
                [] (sample_world two_points_mercator) two_points_mercator)
      as [Hsize _]; [reflexivity|].
    rewrite Hsize. reflexivity.
  - destruct (@from_geopandas_new_frames sample_env Scatterplot 1%positive
                false [] (sample_world two_points) two_points)
      as [Hsize _]; [reflexivity|].
    rewrite Hsize. reflexivity.
Defined.

(** X8. What a call does to the world is settled before the layer is
    constructed: the warning issued and the frames created are the same
    whatever the layer class and whatever the keywords, so also for a call
    that ends in a validation error. *)
Theorem from_geopandas_effects_before_validation `{Externals}
  (cls cls' : layer_class) (gdf : loc) (auto_downcast : bool)
  (kwargs kwargs' : list (string * value)) (w : world) :
  (from_geopandas cls gdf auto_downcast kwargs w).2
  = (from_geopandas cls' gdf auto_downcast kwargs' w).2.
Proof.
  destruct (heap w !! gdf) as [g|] eqn:Hg.
  - by rewrite !(from_geopandas_world _ _ _ _ _ g).
  - by rewrite !from_geopandas_dangling.
Qed.

Lemma from_geopandas_effects_before_validation_witness :
  (@from_geopandas sample_env Scatterplot 1%positive true (radius [1]%Z)
     (sample_world two_points_mercator)).2
  = (@from_geopandas sample_env Scatterplot 1%positive true (radius [1; 2]%Z)
       (sample_world two_points_mercator)).2.
Proof.
  apply (@from_geopandas_effects_before_validation sample_env).
Defined.



(** ** Accessor lengths against the rows of the frame *)

Section accessor_rows_facts.
Context `{Externals}.

Lemma frame_to_geoarrow_rows (g : GeoDataFrame) (t : Table) :
  frame_to_geoarrow g = Ok t → num_rows t = length (gdf_geometry g).
Proof.
  unfold frame_to_geoarrow.
  destruct (GeometryEncoder.detect_geometry_type _) as [ty|e]; [|done].
  intros [= <-]. unfold num_rows; simpl. apply length_fmap.
Qed.

Lemma construct_Ok (cls : layer_class) (t : Table)
  (kwargs : list (string * value)) (layer : Layer) :
  construct cls t kwargs = Ok layer →
  set_traits {| layer_cls := cls; table := t; traits := ∅ |} kwargs = Ok layer.
Proof.
  unfold construct. destruct (unknown_names cls kwargs); [|done].
  unfold PyarrowTableTrait.validate, GeometryEncoder.gate.
  by destruct (bool_decide _).
Qed.

Lemma layer_of_frame_Ok (cls : layer_class) (kwargs : list (string * value))
  (g : GeoDataFrame) (layer : Layer) :
  layer_of_frame cls kwargs g = Ok layer →
  ∃ t, frame_to_geoarrow g = Ok t
       ∧ set_traits {| layer_cls := cls; table := t; traits := ∅ |} kwargs
         = Ok layer.
Proof.
  unfold layer_of_frame, call_cls.
  destruct (frame_to_geoarrow g) as [t|e]; simpl; [|done].
  destruct (bool_decide _); [done|].
  intros Hlayer%construct_Ok. by exists t.
Qed.

Lemma reprojection_step_rows (g : GeoDataFrame) (w : world) :
  length (gdf_geometry (reprojection_step g w).1) = length (gdf_geometry g).
Proof.
  unfold reprojection_step. destruct (gdf_crs g); [|done].
  destruct (needs_reprojection g); [|done]. simpl. apply length_fmap.
Qed.
End accessor_rows_facts.

(** X10. When [from_geopandas] returns a layer, the layer is of the class
    asked for, its table has one row per geometry of the frame, and every
    Arrow array that was given for an accessor of that class has that many
    elements. Downcasting is assumed to keep the number of rows. *)
Theorem from_geopandas_accessor_rows `{Externals} (cls : layer_class)
  (gdf : loc) (auto_downcast : bool) (kwargs : list (string * value))
  (w : world) (g : GeoDataFrame) (layer : Layer) :
  (∀ f, length (gdf_geometry (downcast_frame f)) = length (gdf_geometry f)) →
  heap w !! gdf = Some g →
  (from_geopandas cls gdf auto_downcast kwargs w).1 = Ok layer →
  layer_cls layer = cls
  ∧ num_rows (table layer) = length (gdf_geometry g)
  ∧ (∀ name v, (name, v) ∈ kwargs → name ∈ accessor_traits cls →
       is_arrow_array v = true → value_len v = length (gdf_geometry g)).
Proof.
  intros Hdown Hg Hrun.
  rewrite (from_geopandas_outcome _ _ _ _ _ g) in Hrun by done.
  apply layer_of_frame_Ok in Hrun as (t & Ht & Hset).
  apply frame_to_geoarrow_rows in Ht.
  rewrite downcast_step_frame in Ht.
  assert (num_rows t = length (gdf_geometry g)) as Hrows.
  { rewrite Ht. destruct auto_downcast; rewrite ?Hdown;
      apply reprojection_step_rows. }
  rewrite set_traits_closed_form in Hset. simpl in Hset.
  destruct (forallb _ kwargs) eqn:Hall; [|done].
  injection Hset as <-. simpl. split_and!; [done..|].
  intros name v Hin Hacc Harr. rewrite <- Hrows.
  rewrite forallb_forall in Hall.
  apply (length_fits_true cls (num_rows t) name v).
  - apply Hall. by apply list_elem_of_In.
  - by rewrite <- accessor_traits_validated.
  - done.
Qed.

Lemma from_geopandas_accessor_rows_witness :
  (@from_geopandas sample_env Scatterplot 1%positive true (radius [1; 2]%Z)
     (sample_world two_points)).1
  = Ok {| layer_cls := Scatterplot; table := two_points_table;
          traits := {[ "get_radius" := PaArray [SInt 1; SInt 2] ]} |}
  ∧ num_rows two_points_table = length (gdf_geometry two_points)
  ∧ (∀ name v, (name, v) ∈ radius [1; 2]%Z →
       name ∈ accessor_traits Scatterplot →
       is_arrow_array v = true → value_len v = length (gdf_geometry two_points)).
Proof.
  assert ((@from_geopandas sample_env Scatterplot 1%positive true
             (radius [1; 2]%Z) (sample_world two_points)).1
          = Ok {| layer_cls := Scatterplot; table := two_points_table;
                  traits := {[ "get_radius" := PaArray [SInt 1; SInt 2] ]} |})
    as Hrun by reflexivity.
  split; [exact Hrun|].
  apply (@from_geopandas_accessor_rows sample_env Scatterplot 1%positive true
           (radius [1; 2]%Z) (sample_world two_points) two_points _
           (λ f, eq_refl) eq_refl Hrun).
Defined.

(** ** The declarations of the four classes *)

(** X11. The allow-lists of ScatterplotLayer, PathLayer and SolidPolygonLayer
    split the six geometry types between them: every type is accepted by
    exactly one of the three. HeatmapLayer accepts nothing that
    ScatterplotLayer does not, and no class accepts types of two different
    families. *)
Theorem allow_lists_partition :
  (∀ ty, ∃ cls, cls ≠ Heatmap ∧ ty ∈ allowed_geometry_types cls)
  ∧ (∀ ty cls1 cls2, cls1 ≠ Heatmap → cls2 ≠ Heatmap →
       ty ∈ allowed_geometry_types cls1 → ty ∈ allowed_geometry_types cls2 →
       cls1 = cls2)
  ∧ allowed_geometry_types Heatmap ⊆ allowed_geometry_types Scatterplot
  ∧ (∀ cls ty1 ty2,
       ty1 ∈ allowed_geometry_types cls → ty2 ∈ allowed_geometry_types cls →
       GeometryEncoder.fundamental ty1 = GeometryEncoder.fundamental ty2).
Proof.
  assert (∀ cls ty, ty ∈ allowed_geometry_types cls ↔
            match cls, ty with
            | Scatterplot, (EXTENSION_NAME.POINT | EXTENSION_NAME.MULTIPOINT)
            | Path, (EXTENSION_NAME.LINESTRING | EXTENSION_NAME.MULTILINESTRING)
            | SolidPolygon, (EXTENSION_NAME.POLYGON | EXTENSION_NAME.MULTIPOLYGON)
            | Heatmap, EXTENSION_NAME.POINT => True
            | _, _ => False
            end) as Hallowed.
  { intros cls ty.
    unfold allowed_geometry_types, ScatterplotLayer.allowed_geometry_types,
      PathLayer.allowed_geometry_types,
      SolidPolygonLayer.allowed_geometry_types,
      HeatmapLayer.allowed_geometry_types.
    destruct cls, ty; rewrite ?elem_of_union, !elem_of_singleton;
      split; try done; try tauto; intros [?|?]; done. }
  split_and!.
  - intros ty. destruct ty;
      [exists Scatterplot|exists Path|exists SolidPolygon
      |exists Scatterplot|exists Path|exists SolidPolygon];
      by rewrite Hallowed.
  - intros ty cls1 cls2 H1 H2. rewrite !Hallowed.
    by destruct cls1, cls2, ty.
  - intros ty. rewrite !Hallowed. by destruct ty.
  - intros cls ty1 ty2. rewrite !Hallowed.
    by destruct cls, ty1, ty2.
Qed.

(** X12. In each of the four classes the names registered with the accessor
    validator are exactly the traits declared as accessors, each of them a
    trait the class declares; and no class declares a trait twice or
    redeclares one of BaseLayer's. *)
Theorem validators_cover_accessors (cls : layer_class) :
  (∀ name, name ∈ validated_accessors cls ↔ name ∈ accessor_traits cls)
  ∧ (∀ name, name ∈ accessor_traits cls → name ∈ own_traits cls)
  ∧ NoDup (BaseLayer.own_traits ++ own_traits cls).
Proof.
  split_and!.
  - intros name. by destruct cls.
  - assert (Forall (λ name, name ∈ own_traits cls) (accessor_traits cls))
      as Hall by (apply (bool_decide_unpack _); by destruct cls; vm_compute).
    intros name Hin. rewrite Forall_forall in Hall. by apply Hall.
  - apply (bool_decide_unpack _). by destruct cls; vm_compute.
Qed.
